(** * CSV visualizer: statistics and ASCII histograms

    A shallow embedding of [src/app/visualize_data.py] (class
    [CSVVisualizer]) together with the properties its specification
    states about it.

    Numbers.  Column values are exact rationals ([Q]); the float64
    arithmetic of pandas and numpy is read as exact arithmetic, so
    rounding, overflow and infinities are outside the model.  A missing
    cell (pandas' NaN) is [None].

    Library calls.  [pd.read_csv], [DataFrame.sample], the reductions of
    a pandas Series ([min], [max], [mean], [median], [quantile], [std])
    and [np.histogram] are not code of the repository; they are modelled
    here after their documented behaviour, each in a definition named
    after the call it stands for. *)

From Stdlib Require Import Ascii String.
From Stdlib Require Import List Bool Arith ZArith QArith Qround Qabs Lia Lqa.
From Stdlib Require Import Sorted Permutation.
Import ListNotations.

(** ** Python strings *)

(** A Python [str] is a sequence of Unicode code points; [len] counts
    code points, so the block characters of the histograms count one
    each. *)
Definition pystr := list N.

Definition str (s : string) : pystr :=
  map N_of_ascii (list_ascii_of_string s).

Definition pystr_eqb (a b : pystr) : bool :=
  if list_eq_dec N.eq_dec a b then true else false.

(** [c in names] *)
Definition mem (c : pystr) (names : list pystr) : bool :=
  existsb (pystr_eqb c) names.

(** [sep.join(parts)] *)
Fixpoint join (sep : pystr) (parts : list pystr) : pystr :=
  match parts with
  | [] => []
  | [p] => p
  | p :: rest => p ++ sep ++ join sep rest
  end.

(** [f"{s:15}"]: left-aligned, padded with spaces up to the width. *)
Definition ljust (width : nat) (s : pystr) : pystr :=
  s ++ repeat 32%N (width - length s).

(** [str(n)] for an integer. *)
Definition digit_char (d : Z) : N := (48 + Z.to_N d)%N.

Fixpoint digits_fuel (fuel : nat) (n : Z) (acc : pystr) : pystr :=
  match fuel with
  | O => acc
  | S fuel' =>
      let acc' := digit_char (n mod 10) :: acc in
      if (n / 10 =? 0)%Z then acc' else digits_fuel fuel' (n / 10)%Z acc'
  end.

Definition str_of_int (n : Z) : pystr :=
  let a := Z.abs n in
  let ds := digits_fuel (S (Z.to_nat (Z.log2 a))) a [] in
  if (n <? 0)%Z then 45%N :: ds else ds.

(** ** Floats *)

(** A float that may be NaN.  Only [std] and what is computed from it can
    be NaN on a non-empty column of finite values. *)
Inductive npfloat : Type :=
| Finite (q : Q)
| NaN.

(** [ndarray.astype(int)] and [int(x)]: truncation toward zero. *)
Definition astype_int (q : Q) : Z := Z.quot (Qnum q) (QDen q).

(** ** Reductions of a pandas Series of non-missing values *)

Fixpoint insert_sorted (x : Q) (l : list Q) : list Q :=
  match l with
  | [] => [x]
  | y :: l' => if Qle_bool x y then x :: l else y :: insert_sorted x l'
  end.

(** [np.sort]. *)
Fixpoint sort_values (l : list Q) : list Q :=
  match l with
  | [] => []
  | x :: l' => insert_sorted x (sort_values l')
  end.

Definition Qmin (a b : Q) : Q := if Qle_bool a b then a else b.
Definition Qmax (a b : Q) : Q := if Qle_bool a b then b else a.

(** [Series.min()] and [Series.max()].  On an empty series pandas gives
    NaN; every caller below has checked that the series is not empty, and
    [0] stands there. *)
Definition series_min (l : list Q) : Q :=
  match l with
  | [] => 0
  | x :: l' => fold_left Qmin l' x
  end.

Definition series_max (l : list Q) : Q :=
  match l with
  | [] => 0
  | x :: l' => fold_left Qmax l' x
  end.

Definition Qsum (l : list Q) : Q := fold_right Qplus 0 l.

Definition of_nat (n : nat) : Q := inject_Z (Z.of_nat n).

(** [Series.mean()]. *)
Definition series_mean (l : list Q) : Q := Qsum l / of_nat (length l).

(** [Series.median()]: the middle order statistic, or the mean of the two
    middle ones when the size is even. *)
Definition series_median (l : list Q) : Q :=
  let s := sort_values l in
  let n := length s in
  if Nat.even n
  then (nth (n / 2 - 1) s 0 + nth (n / 2) s 0) / 2
  else nth (n / 2) s 0.

(** numpy's [_lerp(a, b, t)]. *)
Definition lerp (a b t : Q) : Q := a + (b - a) * t.

(** [Series.quantile(q)] with the default linear interpolation: the
    virtual index [(n - 1) * q] is split into its floor and its
    fractional part, and the result interpolates between the order
    statistics at the floor and at the next index (clipped to [n - 1]). *)
Definition series_quantile (q : Q) (l : list Q) : Q :=
  let s := sort_values l in
  let n := length s in
  let virtual_index := of_nat (n - 1) * q in
  let previous_index := Z.to_nat (Qfloor virtual_index) in
  let next_index := Nat.min (previous_index + 1) (n - 1) in
  let gamma := virtual_index - of_nat previous_index in
  lerp (nth previous_index s 0) (nth next_index s 0) gamma.


(** Sample variance with [ddof = 1]. *)
Definition series_var (l : list Q) : Q :=
  let m := series_mean l in
  Qsum (map (fun x => (x - m) * (x - m)) l) / of_nat (length l - 1).

(** ** Exceptions and outcomes *)

(** The exception classes the program can meet.  [FloatingPointError] is
    what numpy raises for a division whose divisor is zero when its
    error state is set to raise; under the default error state the same
    division yields an infinity or NaN with a warning.  The strict
    reading is used here so that the absence of such a division can be
    stated. *)
Inductive exn : Type :=
| FileNotFoundError (msg : pystr)
| EmptyDataError (msg : pystr)
| ValueError (msg : pystr)
| KeyError (msg : pystr)
| TypeError (msg : pystr)
| FloatingPointError (msg : pystr)
| RuntimeError (msg : pystr)
| OtherException (msg : pystr).

Inductive outcome (A : Type) : Type :=
| Returned (a : A)
| Raised (e : exn).

Arguments Returned {A} a.
Arguments Raised {A} e.

(** [str(e)] *)
Definition exn_message (e : exn) : pystr :=
  match e with
  | FileNotFoundError m | EmptyDataError m | ValueError m | KeyError m
  | TypeError m | FloatingPointError m | RuntimeError m | OtherException m => m
  end.

(** The quotient of a float by a non-zero number; NaN stays NaN. *)
Definition quotient (a : npfloat) (b : Q) : npfloat :=
  match a with
  | Finite x => Finite (x / b)
  | NaN => NaN
  end.

(** [a / b] on numpy floats. *)
Definition np_divide (a : npfloat) (b : Q) : outcome npfloat :=
  if Qeq_bool b 0 then Raised (FloatingPointError (str "divide by zero encountered"))
  else Returned (quotient a b).

(** ** Series and data frames *)

(** A column as [pd.read_csv] builds it: of a number dtype (int64 or
    float64, the latter with NaN for a missing cell), or of dtype
    object. *)
Inductive Series : Type :=
| NumberSeries (values : list (option Q))
| ObjectSeries (values : list (option pystr)).

Definition is_some {A : Type} (o : option A) : bool :=
  match o with Some _ => true | None => false end.

Definition is_none {A : Type} (o : option A) : bool := negb (is_some o).

(** [len(series)] *)
Definition series_len (s : Series) : nat :=
  match s with
  | NumberSeries v => length v
  | ObjectSeries v => length v
  end.

(** [series.dropna()] *)
Definition dropna (s : Series) : Series :=
  match s with
  | NumberSeries v => NumberSeries (filter is_some v)
  | ObjectSeries v => ObjectSeries (filter is_some v)
  end.

(** [series.isna().sum()] *)
Definition isna_sum (s : Series) : nat :=
  match s with
  | NumberSeries v => length (filter is_none v)
  | ObjectSeries v => length (filter is_none v)
  end.

(** [series.notna().any()] *)
Definition notna_any (s : Series) : bool :=
  match s with
  | NumberSeries v => existsb is_some v
  | ObjectSeries v => existsb is_some v
  end.

(** The present values of a list of cells, in order. *)
Fixpoint present {A : Type} (v : list (option A)) : list A :=
  match v with
  | [] => []
  | Some x :: v' => x :: present v'
  | None :: v' => present v'
  end.

(** Positional selection of rows, [series.iloc[positions]]. *)
Definition take {A : Type} (positions : list nat) (v : list (option A)) : list (option A) :=
  map (fun i => nth i v None) positions.

Definition series_take (positions : list nat) (s : Series) : Series :=
  match s with
  | NumberSeries v => NumberSeries (take positions v)
  | ObjectSeries v => ObjectSeries (take positions v)
  end.

(** A data frame: the row labels and the named columns, in header
    order. *)
Record DataFrame : Type := mkDataFrame {
  df_index : list nat;
  df_columns : list (pystr * Series)
}.

(** Every column has one cell per row label. *)
Definition well_formed (df : DataFrame) : Prop :=
  Forall (fun c => series_len (snd c) = length (df_index df)) (df_columns df).

(** [len(df)] *)
Definition df_len (df : DataFrame) : nat := length (df_index df).

(** [df.empty]: some axis has length zero. *)
Definition df_empty (df : DataFrame) : bool :=
  (df_len df =? 0)%nat || (length (df_columns df) =? 0)%nat.

(** [df.columns] *)
Definition df_names (df : DataFrame) : list pystr := map fst (df_columns df).

(** [df[c]] *)
Fixpoint lookup (c : pystr) (cols : list (pystr * Series)) : option Series :=
  match cols with
  | [] => None
  | (name, s) :: rest => if pystr_eqb c name then Some s else lookup c rest
  end.

Definition df_get (df : DataFrame) (c : pystr) : outcome Series :=
  match lookup c (df_columns df) with
  | Some s => Returned s
  | None => Raised (KeyError c)
  end.

Definition is_number (s : Series) : bool :=
  match s with NumberSeries _ => true | ObjectSeries _ => false end.

(** [df.select_dtypes(include=["number"]).columns.tolist()] *)
Definition select_dtypes_number (df : DataFrame) : list pystr :=
  map fst (filter (fun c => is_number (snd c)) (df_columns df)).

(** The rows at the given positions, in that order. *)
Definition df_take (positions : list nat) (df : DataFrame) : DataFrame :=
  {| df_index := map (fun i => nth i (df_index df) O) positions;
     df_columns := map (fun c => (fst c, series_take positions (snd c))) (df_columns df) |}.

(** ** np.histogram *)

(** The outer edges: the data's minimum and maximum, widened by one half
    on each side when they coincide; [(0, 1)] for no data. *)
Definition outer_edges (a : list Q) : Q * Q :=
  match a with
  | [] => (0, 1)
  | _ :: _ =>
      let first_edge := series_min a in
      let last_edge := series_max a in
      if Qeq_bool first_edge last_edge
      then (first_edge - (1 # 2), last_edge + (1 # 2))
      else (first_edge, last_edge)
  end.

(** [np.linspace(first, last, n + 1)] *)
Definition linspace (first_edge last_edge : Q) (n : nat) : list Q :=
  map (fun i => first_edge + of_nat i * ((last_edge - first_edge) / of_nat n)) (seq 0 (S n)).

(** The bin of a kept value: the truncated scaled offset, with the value
    on the last edge moved into the last bin. *)
Definition bin_index (first_edge last_edge : Q) (n : Z) (x : Q) : Z :=
  let f_index := (x - first_edge) / (last_edge - first_edge) * inject_Z n in
  let index := astype_int f_index in
  if (index =? n)%Z then (index - 1)%Z else index.

Definition count_eq (i : Z) (indices : list Z) : nat :=
  length (filter (Z.eqb i) indices).

(** [np.bincount(indices, minlength=n)] *)
Definition bincount (indices : list Z) (n : nat) : list nat :=
  map (fun i => count_eq (Z.of_nat i) indices) (seq 0 n).

(** [np.histogram(a, bins=bins)] for an integer [bins]: equal-width bins
    over the outer edges; a non-positive [bins] is a [ValueError]. *)
Definition np_histogram (a : list Q) (bins : Z) : outcome (list nat * list Q) :=
  if (bins <? 1)%Z
  then Raised (ValueError (str "`bins` must be positive, when an integer"))
  else
    let '(first_edge, last_edge) := outer_edges a in
    let n_equal_bins := Z.to_nat bins in
    let bin_edges := linspace first_edge last_edge n_equal_bins in
    let keep := filter (fun x => Qle_bool first_edge x && Qle_bool x last_edge) a in
    let indices := map (bin_index first_edge last_edge bins) keep in
    Returned (bincount indices n_equal_bins, bin_edges).

(** [hist.sum()] and [hist.max()] *)
Definition hist_sum (hist : list nat) : nat := fold_right Nat.add O hist.
Definition hist_max (hist : list nat) : nat := fold_right Nat.max O hist.

(** ** ColumnStatistics *)

(** The dictionary [calculate_statistics] returns, one field per key;
    [skew] and [kurtosis] are present only with [show_all_stats]. *)
Module Stats.
Record t : Type := mk {
  column : pystr;
  count : nat;
  missing : nat;
  min : Q;
  max : Q;
  mean : Q;
  median : Q;
  q25 : Q;
  q75 : Q;
  std : npfloat;
  range : Q;
  iqr : Q;
  cv : npfloat;
  skew : option npfloat;
  kurtosis : option npfloat
}.
End Stats.

(** ** The visualizer object *)

Record CSVVisualizer : Type := mkVisualizer {
  csv_path : pystr;
  columns : option (list pystr);
  bins : Z;
  sample_size : option Z;
  histogram_width : Z;
  show_all_stats : bool;
  random_state : Z;
  data : option DataFrame;
  numeric_columns : list pystr;
  quiet_mode : bool
}.

(** [CSVVisualizer.__init__] *)
Definition init (csv_path : pystr) (columns : option (list pystr)) (bins : Z)
    (sample_size : option Z) (histogram_width : Z) (show_all_stats : bool)
    (random_state : Z) : CSVVisualizer :=
  {| csv_path := csv_path; columns := columns; bins := bins;
     sample_size := sample_size; histogram_width := histogram_width;
     show_all_stats := show_all_stats; random_state := random_state;
     data := None; numeric_columns := []; quiet_mode := false |}.

Definition set_data (self : CSVVisualizer) (df : DataFrame) : CSVVisualizer :=
  {| csv_path := csv_path self; columns := columns self; bins := bins self;
     sample_size := sample_size self; histogram_width := histogram_width self;
     show_all_stats := show_all_stats self; random_state := random_state self;
     data := Some df; numeric_columns := numeric_columns self;
     quiet_mode := quiet_mode self |}.

Definition set_numeric_columns (self : CSVVisualizer) (cols : list pystr) : CSVVisualizer :=
  {| csv_path := csv_path self; columns := columns self; bins := bins self;
     sample_size := sample_size self; histogram_width := histogram_width self;
     show_all_stats := show_all_stats self; random_state := random_state self;
     data := data self; numeric_columns := cols;
     quiet_mode := quiet_mode self |}.

(** [visualizer.quiet_mode = quiet], as [main] does after construction. *)
Definition set_quiet_mode (self : CSVVisualizer) (quiet : bool) : CSVVisualizer :=
  {| csv_path := csv_path self; columns := columns self; bins := bins self;
     sample_size := sample_size self; histogram_width := histogram_width self;
     show_all_stats := show_all_stats self; random_state := random_state self;
     data := data self; numeric_columns := numeric_columns self;
     quiet_mode := quiet |}.

(** ** A monad for methods that update [self], print and may raise *)

(** A computation takes the object and yields the object as it left it,
    the lines it printed, and what it returned or raised. *)
Definition M (A : Type) : Type :=
  CSVVisualizer -> CSVVisualizer * list pystr * outcome A.

Definition ret {A : Type} (a : A) : M A := fun self => (self, [], Returned a).

Definition raise {A : Type} (e : exn) : M A := fun self => (self, [], Raised e).

Definition bind {A B : Type} (m : M A) (k : A -> M B) : M B :=
  fun self =>
    match m self with
    | (self1, out1, Returned a) =>
        match k a self1 with
        | (self2, out2, r) => (self2, out1 ++ out2, r)
        end
    | (self1, out1, Raised e) => (self1, out1, Raised e)
    end.

Definition get : M CSVVisualizer := fun self => (self, [], Returned self).

Definition modify (f : CSVVisualizer -> CSVVisualizer) : M unit :=
  fun self => (f self, [], Returned tt).

Definition print (line : pystr) : M unit := fun self => (self, [line], Returned tt).

Definition lift {A : Type} (r : outcome A) : M A := fun self => (self, [], r).

(** [try: body except ...: raise handler(e)] *)
Definition try_except {A : Type} (body : M A) (handler : exn -> exn) : M A :=
  fun self =>
    match body self with
    | (self1, out1, Returned a) => (self1, out1, Returned a)
    | (self1, out1, Raised e) => (self1, out1, Raised (handler e))
    end.

Definition when (b : bool) (m : M unit) : M unit := if b then m else ret tt.

(** [for x in xs: body(x)] *)
Fixpoint for_each {A : Type} (xs : list A) (body : A -> M unit) : M unit :=
  match xs with
  | [] => ret tt
  | x :: xs' => bind (body x) (fun _ => for_each xs' body)
  end.

Declare Scope py_scope.
Delimit Scope py_scope with py.
Notation "x <- m ;; k" := (bind m (fun x => k))
  (at level 61, m at next level, right associativity) : py_scope.
Notation "m ;;; k" := (bind m (fun _ => k))
  (at level 61, right associativity) : py_scope.

(** ** Formatting *)

(** Rounding to the nearest integer, ties to the even one. *)
Definition round_half_even (q : Q) : Z :=
  let f := Qfloor q in
  let r := q - inject_Z f in
  match Qcompare r (1 # 2) with
  | Lt => f
  | Gt => (f + 1)%Z
  | Eq => if Z.even f then f else (f + 1)%Z
  end.

(** [format(x, ".2f")]: sign, integer part, point, two decimals. *)
Definition format_2f (x : Q) : pystr :=
  let h := round_half_even (Qabs x * 100) in
  let frac := (h mod 100)%Z in
  (if Qlt_le_dec x 0 then [45%N] else [])
    ++ str_of_int (h / 100) ++ [46%N]
    ++ [digit_char (frac / 10); digit_char (frac mod 10)].

(** ** Stand-ins for the library functions left open below *)

(** A sampler that takes the first [n] positions. *)
Definition head_choice (seed : Z) (population n : nat) : list nat := seq 0 n.

(** The integer square root of the floor. *)
Definition floor_sqrt (q : Q) : Q := inject_Z (Z.sqrt (Qfloor q)).

(** Moment statistics that are never defined. *)
Definition no_moment (l : list Q) : npfloat := NaN.

(** ** The methods of [CSVVisualizer] *)

Section Methods.

Local Open Scope py_scope.

(** [pd.read_csv(path)]: the file system as the program sees it. *)
Variable read_csv : pystr -> outcome DataFrame.

(** The positions [DataFrame.sample(n, random_state)] draws from a
    population, as a function of the seed. *)
Variable choice : Z -> nat -> nat -> list nat.

(** The float square root. *)
Variable sqrt : Q -> Q.

(** Skewness and excess kurtosis, from scipy when it can be imported
    and from pandas otherwise. *)
Variable skew_of : list Q -> npfloat.
Variable kurtosis_of : list Q -> npfloat.

(** [df.sample(n=n, random_state=seed)], without replacement. *)
Definition df_sample (df : DataFrame) (n : Z) (seed : Z) : outcome DataFrame :=
  if (n <? 0)%Z
  then Raised (ValueError (str "A negative number of rows requested. Please provide `n` >= 0."))
  else if (Z.of_nat (df_len df) <? n)%Z
  then Raised (ValueError (str "Cannot take a larger sample than population when 'replace=False'"))
  else Returned (df_take (choice seed (df_len df) (Z.to_nat n)) df).

(** [Series.std()]: NaN below two values. *)
Definition series_std (l : list Q) : npfloat :=
  if (length l <=? 1)%nat then NaN else Finite (sqrt (series_var l)).

(** Truth value of an [Optional[int]]: [None] and [0] are false. *)
Definition truthy_int (o : option Z) : bool :=
  match o with
  | None => false
  | Some n => negb (n =? 0)%Z
  end.

(** Truth value of an [Optional[List[str]]]: [None] and [[]] are false. *)
Definition truthy_list (o : option (list pystr)) : bool :=
  match o with
  | None | Some [] => false
  | Some (_ :: _) => true
  end.

Definition or_empty (o : option (list pystr)) : list pystr :=
  match o with Some l => l | None => [] end.

(** [[c for c in numeric_cols if self.data[c].notna().any()]] *)
Definition drop_all_nan (df : DataFrame) (numeric_cols : list pystr) : list pystr :=
  filter (fun c => match lookup c (df_columns df) with
                   | Some s => notna_any s
                   | None => false
                   end) numeric_cols.

Definition info_sampled (n : Z) : pystr :=
  str "[INFO] Sampled " ++ str_of_int n ++ str " rows from dataset".

Definition warning_not_found (c : pystr) : pystr :=
  str "[WARNING] Column '" ++ c ++ str "' not found in CSV file".

(** The [except] clauses of [load_and_prepare_data]. *)
Definition load_handler (path : pystr) (e : exn) : exn :=
  match e with
  | FileNotFoundError _ => FileNotFoundError (str "CSV file not found: " ++ path)
  | EmptyDataError _ => ValueError (str "CSV file is empty")
  | ValueError m => ValueError m
  | _ => RuntimeError (str "Error loading CSV file: " ++ exn_message e)
  end.

(** The body of the [try] of [load_and_prepare_data]. *)
Definition load_body : M unit :=
  self <- get ;;
  df <- lift (read_csv (csv_path self)) ;;
  modify (fun s => set_data s df) ;;;
  (if df_empty df then raise (ValueError (str "CSV file contains no data")) else ret tt) ;;;
  (* Sample data if requested *)
  df <- (match sample_size self with
         | Some n =>
             if truthy_int (Some n) && (n <? Z.of_nat (df_len df))%Z
             then
               sampled <- lift (df_sample df n (random_state self)) ;;
               modify (fun s => set_data s sampled) ;;;
               when (negb (quiet_mode self)) (print (info_sampled n)) ;;;
               ret sampled
             else ret df
         | None => ret df
         end) ;;
  (* Identify numeric columns *)
  let numeric_cols := select_dtypes_number df in
  (* Remove numeric columns that have all NaN values *)
  let numeric_cols := drop_all_nan df numeric_cols in
  (* Filter to requested columns if specified *)
  numeric_cols <-
    (if truthy_list (columns self)
     then
       let requested := or_empty (columns self) in
       let valid_columns := filter (fun c => mem c (df_names df)) requested in
       when (negb (quiet_mode self))
         (for_each requested (fun c =>
            when (negb (mem c (df_names df))) (print (warning_not_found c)))) ;;;
       ret (filter (fun c => mem c valid_columns) numeric_cols)
     else ret numeric_cols) ;;
  modify (fun s => set_numeric_columns s numeric_cols) ;;;
  (if match numeric_cols with [] => true | _ => false end
   then raise (ValueError (str "No numeric columns found"))
   else ret tt).

(** [load_and_prepare_data] *)
Definition load_and_prepare_data : M unit :=
  fun self => try_except load_body (load_handler (csv_path self)) self.

(** [self.data[column]] *)
Definition self_column (self : CSVVisualizer) (column : pystr) : outcome Series :=
  match data self with
  | None => Raised (TypeError (str "'NoneType' object is not subscriptable"))
  | Some df => df_get df column
  end.

(** The values of a series without missing cells, as numbers.  On a
    column of strings the conversions to float, the reductions and
    [np.histogram] raise (a [TypeError] or a [ValueError], by the strings
    met; nothing below depends on which). *)
Definition numbers (col_data : Series) : outcome (list Q) :=
  match col_data with
  | NumberSeries cells => Returned (present cells)
  | ObjectSeries _ => Raised (TypeError (str "unsupported operand type(s)"))
  end.

(** [std / mean if mean != 0 else 0] *)
Definition cv_of (std : npfloat) (mean : Q) : outcome npfloat :=
  if negb (Qeq_bool mean 0) then np_divide std mean else Returned (Finite 0).

(** [calculate_statistics]; [None] is the empty dictionary. *)
Definition calculate_statistics (self : CSVVisualizer) (column : pystr)
    : outcome (option Stats.t) :=
  match self_column self column with
  | Raised e => Raised e
  | Returned series =>
      let col_data := dropna series in
      if (series_len col_data =? 0)%nat then Returned None
      else
        match numbers col_data with
        | Raised e => Raised e
        | Returned xs =>
            match cv_of (series_std xs) (series_mean xs) with
            | Raised e => Raised e
            | Returned cv =>
                Returned (Some
                  {| Stats.column := column;
                     Stats.count := series_len col_data;
                     Stats.missing := isna_sum series;
                     Stats.min := series_min xs;
                     Stats.max := series_max xs;
                     Stats.mean := series_mean xs;
                     Stats.median := series_median xs;
                     Stats.q25 := series_quantile (1 # 4) xs;
                     Stats.q75 := series_quantile (3 # 4) xs;
                     Stats.std := series_std xs;
                     Stats.range := series_max xs - series_min xs;
                     Stats.iqr := series_quantile (3 # 4) xs - series_quantile (1 # 4) xs;
                     Stats.cv := cv;
                     Stats.skew :=
                       if show_all_stats self then Some (skew_of xs) else None;
                     Stats.kurtosis :=
                       if show_all_stats self then Some (kurtosis_of xs) else None |})
            end
        end
  end.

(** The block characters: [' '], then U+2581 to U+2588. *)
Definition ascii_chars : pystr :=
  [32; 9601; 9602; 9603; 9604; 9605; 9606; 9607; 9608]%N.

Definition full_block : N := 9608%N.
Definition low_block : N := 9601%N.
Definition space : N := 32%N.

(** [(hist / max_count * factor).astype(int)] *)
Definition scale (hist : list nat) (max_count : nat) (factor : Z) : list Z :=
  map (fun h => astype_int (of_nat h / of_nat max_count * inject_Z factor)) hist.

(** The bar of a bin from its scaled length and its count. *)
Definition bar_of (bar_length : Z) (count_i : nat) : pystr :=
  if (0 <? bar_length)%Z then repeat full_block (Z.to_nat bar_length)
  else if (0 <? count_i)%nat then [low_block]
  else [space].

(** [f"{bin_edges[i]:.2f}-{bin_edges[i+1]:.2f}"]; the edges are floats
    and [i + 1] is within them, so the formatting does not fail and the
    fallback label of the [except] clause is never used. *)
Definition bin_label (bin_edges : list Q) (i : nat) : pystr :=
  format_2f (nth i bin_edges 0) ++ str "-" ++ format_2f (nth (i + 1) bin_edges 0).

(** One turn of the loop of [create_ascii_histogram], for bin [i]. *)
Definition histogram_line (hist : list nat) (scaled_hist : list Z)
    (bin_edges : list Q) (i : nat) : pystr :=
  let bar := bar_of (nth i scaled_hist 0%Z) (nth i hist O) in
  ljust 15 (bin_label bin_edges i) ++ str " |" ++ bar.

(** [ascii_chars[min(level, len(ascii_chars)-1)]]; a level is never
    negative, a count being none. *)
Definition level_char (level : Z) : N :=
  nth (Z.to_nat (Z.min level (Z.of_nat (length ascii_chars) - 1))) ascii_chars space.

(** [create_ascii_histogram] *)
Definition create_ascii_histogram (self : CSVVisualizer) (column : pystr)
    : outcome pystr :=
  match self_column self column with
  | Raised e => Raised e
  | Returned series =>
      let col_data := dropna series in
      if (series_len col_data <? 2)%nat then Returned (str "[Insufficient data]")
      else
        match match numbers col_data with
              | Returned xs => np_histogram xs (bins self)
              | Raised e => Raised e
              end with
        | Raised _ => Returned (str "[Error creating histogram]")
        | Returned (hist, bin_edges) =>
            if (hist_sum hist =? 0)%nat then Returned (str "[No data in bins]")
            else
              let max_count := hist_max hist in
              if (max_count =? 0)%nat then Returned (str "[Empty histogram]")
              else
                let scaled_hist := scale hist max_count (histogram_width self) in
                let histogram_lines :=
                  map (histogram_line hist scaled_hist bin_edges)
                      (seq 0 (Z.to_nat (bins self))) in
                Returned (join [10%N] histogram_lines)
        end
  end.

(** [create_inline_histogram] *)
Definition create_inline_histogram (self : CSVVisualizer) (column : pystr)
    : outcome pystr :=
  match self_column self column with
  | Raised e => Raised e
  | Returned series =>
      let col_data := dropna series in
      if (series_len col_data <? 2)%nat then Returned (str "[Insufficient data]")
      else
        match match numbers col_data with
              | Returned xs => np_histogram xs (bins self)
              | Raised e => Raised e
              end with
        | Raised _ => Returned (str "[Error]")
        | Returned (hist, _) =>
            if (hist_sum hist =? 0)%nat then Returned (str "[No data]")
            else
              let max_count := hist_max hist in
              if (max_count =? 0)%nat then Returned (str "[ ]")
              else
                let normalized := scale hist max_count 8 in
                let histogram_chars := map (fun level => [level_char level]) normalized in
                Returned (concat histogram_chars)
        end
  end.

(** *** The loader in closed form *)

(** What the sampling block of [load_and_prepare_data] leaves in
    [self.data], or the exception [sample] raises. *)
Definition after_sampling (self : CSVVisualizer) (df : DataFrame) : outcome DataFrame :=
  match sample_size self with
  | Some n =>
      if truthy_int (Some n) && (n <? Z.of_nat (df_len df))%Z
      then df_sample df n (random_state self)
      else Returned df
  | None => Returned df
  end.

(** The notice the sampling block prints. *)
Definition sampling_notice (self : CSVVisualizer) (df : DataFrame) : list pystr :=
  match sample_size self with
  | Some n =>
      if truthy_int (Some n) && (n <? Z.of_nat (df_len df))%Z
      then if quiet_mode self then [] else [info_sampled n]
      else []
  | None => []
  end.

(** The column selection computed on the frame [df]. *)
Definition selection (self : CSVVisualizer) (df : DataFrame) : list pystr :=
  let numeric_cols := drop_all_nan df (select_dtypes_number df) in
  if truthy_list (columns self)
  then
    let valid_columns := filter (fun c => mem c (df_names df)) (or_empty (columns self)) in
    filter (fun c => mem c valid_columns) numeric_cols
  else numeric_cols.

(** The warnings printed for the requested names the frame lacks. *)
Definition warnings (self : CSVVisualizer) (df : DataFrame) : list pystr :=
  if truthy_list (columns self) && negb (quiet_mode self)
  then flat_map (fun c => if negb (mem c (df_names df)) then [warning_not_found c] else [])
         (or_empty (columns self))
  else [].

Definition no_numeric_columns : exn := ValueError (str "No numeric columns found").

Definition load_closed_form (self : CSVVisualizer)
    : CSVVisualizer * list pystr * outcome unit :=
  match read_csv (csv_path self) with
  | Raised e => (self, [], Raised (load_handler (csv_path self) e))
  | Returned df0 =>
      if df_empty df0
      then (set_data self df0, [], Raised (ValueError (str "CSV file contains no data")))
      else
        match after_sampling self df0 with
        | Raised e => (set_data self df0, [], Raised (load_handler (csv_path self) e))
        | Returned df =>
            let cols := selection self df in
            (set_numeric_columns (set_data self df) cols,
             sampling_notice self df0 ++ warnings self df,
             match cols with
             | [] => Raised no_numeric_columns
             | _ :: _ => Returned tt
             end)
        end
  end.

End Methods.

(** The text both renders return for a column too short to draw. *)
Definition insufficient : pystr := str "[Insufficient data]".

(** ** The wide histogram as the specification words it *)



(** ** Example data *)

(** The frame of the test suite's [simple_csv]. *)
Definition simple_frame : DataFrame :=
  {| df_index := [0; 1; 2; 3; 4]%nat;
     df_columns :=
       [(str "name", ObjectSeries [Some (str "Lens View"); Some (str "Crystal Kimalel");
                                   Some (str "Sarah Mutoni"); Some (str "Lexy Chebet");
                                   Some (str "Joshua Rakitch")]);
        (str "age", NumberSeries [Some 30; Some 25; Some 35; Some 28; Some 40]);
        (str "salary", NumberSeries [Some 50000; Some 55000; Some 60000; Some 52000;
                                     Some 70000]);
        (str "department", ObjectSeries [Some (str "Engineering"); Some (str "Marketing");
                                         Some (str "Engineering"); Some (str "HR");
                                         Some (str "Engineering")])] |}.

(** A file system holding that frame under every path. *)
Definition simple_files (path : pystr) : outcome DataFrame := Returned simple_frame.

(** A visualizer with the default options over [simple_frame], loaded. *)
Definition simple_visualizer : CSVVisualizer :=
  set_numeric_columns
    (set_data (init (str "simple.csv") None 10 None 20 false 42) simple_frame)
    [str "age"; str "salary"].

(** A frame with one column of the given cells. *)
Definition one_column (name : pystr) (cells : list (option Q)) : DataFrame :=
  {| df_index := seq 0 (length cells);
     df_columns := [(name, NumberSeries cells)] |}.

(** The column [[1.0, 2.0]] with the default options. *)
Definition two_values : CSVVisualizer :=
  set_data (init (str "two.csv") None 10 None 20 false 42)
            (one_column (str "a") [Some 1; Some 2]).



(** A fresh visualizer over [simple_frame] asking for a sample of the
    given size. *)
Definition sampling (size : Z) : CSVVisualizer :=
  init (str "simple.csv") None 10 (Some size) 20 false 42.

(** A fresh visualizer asking for the columns [age] and [height]. *)
Definition filtering : CSVVisualizer :=
  init (str "simple.csv") (Some [str "age"; str "height"]) 10 None 20 false 42.

(** ** The selection, column by column *)

(** Whether the header name [c] is selected: its column is of a number
    dtype, holds a value, and is named by the filter when there is
    one. *)
Definition chosen (self : CSVVisualizer) (df : DataFrame) (c : pystr) : bool :=
  match lookup c (df_columns df) with
  | Some s => is_number s && notna_any s
  | None => false
  end
  && (if truthy_list (columns self) then mem c (or_empty (columns self)) else true).

(** ** The height of a block character *)



(** ** Format specifications *)

(** [s.rjust(width, "0")] *)
Definition zfill (width : nat) (s : pystr) : pystr :=
  repeat 48%N (width - length s) ++ s.

(** [format(x, ".df")] for [d] decimals: sign, integer part, point, [d]
    decimals, the value rounded to the nearest, ties to even. *)
Definition format_f (d : nat) (x : Q) : pystr :=
  let scale := (10 ^ Z.of_nat d)%Z in
  let h := round_half_even (Qabs x * inject_Z scale) in
  (if Qlt_le_dec x 0 then [45%N] else [])
    ++ str_of_int (h / scale) ++ [46%N] ++ zfill d (str_of_int (h mod scale)).

(** The same for a float that may be NaN. *)
Definition format_float (d : nat) (x : npfloat) : pystr :=
  match x with
  | Finite q => format_f d q
  | NaN => str "nan"
  end.

(** [format(x, ".2%")] *)
Definition format_percent (x : npfloat) : pystr :=
  match x with
  | Finite q => format_f 2 (q * 100) ++ str "%"
  | NaN => str "nan%"
  end.

(** The digits of a number, last first, with a comma after every third
    when more follow. *)
Fixpoint commas_rev (rev_digits : list N) (pos : nat) : list N :=
  match rev_digits with
  | [] => []
  | d :: rest =>
      (if (0 <? pos)%nat && (pos mod 3 =? 0)%nat then [44%N; d] else [d])
        ++ commas_rev rest (S pos)
  end.

(** [format(n, ",")] for an integer that is not negative. *)
Definition format_thousands (n : nat) : pystr :=
  rev (commas_rev (rev (str_of_int (Z.of_nat n))) 0).

(** ** Splitting text and paths *)

(** [s.split(sep)] for a one-character separator: the pieces between
    the occurrences of [sep], of which there is always one at least. *)
Fixpoint split_on (sep : N) (s : pystr) : list pystr :=
  match s with
  | [] => [[]]
  | ch :: s' =>
      if (ch =? sep)%N then [] :: split_on sep s'
      else match split_on sep s' with
           | piece :: pieces => (ch :: piece) :: pieces
           | [] => [[ch]]
           end
  end.

(** [s.rfind(ch)], [None] for -1. *)
Fixpoint rfind (ch : N) (s : pystr) : option nat :=
  match s with
  | [] => None
  | x :: s' =>
      match rfind ch s' with
      | Some i => Some (S i)
      | None => if (x =? ch)%N then Some O else None
      end
  end.

(** [os.path.basename(p)] (POSIX): what follows the last slash. *)
Definition basename (p : pystr) : pystr :=
  match rfind 47%N p with
  | Some i => skipn (S i) p
  | None => p
  end.

(** [os.path.splitext(name)[0]] for a name without a slash: the name up
    to its last dot, unless nothing but dots comes before that dot. *)
Definition splitext_stem (name : pystr) : pystr :=
  match rfind 46%N name with
  | Some i =>
      if forallb (N.eqb 46%N) (firstn i name) then name else firstn i name
  | None => name
  end.

(** ** The report, the analysis run, the export and the command line *)

(** The keys of the statistics shown in the table. *)
Inductive stat_key : Type :=
| Kmin | Kq25 | Kmean | Kmedian | Kq75 | Kmax | Kstd
| Kskew | Kkurtosis | Krange | Kiqr | Kcv.

(** [stats.get(key, 0)] *)
Definition stat_value (key : stat_key) (st : Stats.t) : npfloat :=
  match key with
  | Kmin => Finite (Stats.min st)
  | Kq25 => Finite (Stats.q25 st)
  | Kmean => Finite (Stats.mean st)
  | Kmedian => Finite (Stats.median st)
  | Kq75 => Finite (Stats.q75 st)
  | Kmax => Finite (Stats.max st)
  | Kstd => Stats.std st
  | Kskew => match Stats.skew st with Some x => x | None => Finite 0 end
  | Kkurtosis => match Stats.kurtosis st with Some x => x | None => Finite 0 end
  | Krange => Finite (Stats.range st)
  | Kiqr => Finite (Stats.iqr st)
  | Kcv => Stats.cv st
  end.

(** [self.stat_templates.get(key, '{:.4f}').format(value)] *)
Definition stat_template (key : stat_key) (value : npfloat) : pystr :=
  match key with
  | Kskew | Kkurtosis => format_float 3 value
  | Kcv => format_percent value
  | _ => format_float 4 value
  end.

Definition stat_keys (all : bool) : list stat_key :=
  if all
  then [Kmin; Kq25; Kmean; Kmedian; Kq75; Kmax; Kstd; Kskew; Kkurtosis; Krange; Kiqr; Kcv]
  else [Kmin; Kq25; Kmean; Kmedian; Kq75; Kmax; Kstd].

Definition headers (all : bool) : list pystr :=
  if all
  then [str "Column"; str "Min"; str "25%"; str "Mean"; str "Median"; str "75%";
        str "Max"; str "Std"; str "Skew"; str "Kurt"; str "Range"; str "IQR";
        str "CV%"; str "Histogram"]
  else [str "Column"; str "Min"; str "25%"; str "Mean"; str "Median"; str "75%";
        str "Max"; str "Std"; str "Histogram"].

(** [for i, cell in enumerate(row): col_widths[i] = max(col_widths[i],
    len(str(cell)))]; a row has as many cells as there are headers. *)
Fixpoint widen (col_widths : list nat) (row : list pystr) : list nat :=
  match col_widths, row with
  | w :: ws, cell :: cells => Nat.max w (length cell) :: widen ws cells
  | ws, [] => ws
  | [], _ :: _ => []
  end.

(** [sep.join(cell.ljust(col_widths[i]) for i, cell in enumerate(row))] *)
Fixpoint justified (row : list pystr) (col_widths : list nat) : list pystr :=
  match row, col_widths with
  | cell :: cells, w :: ws => ljust w cell :: justified cells ws
  | _, _ => []
  end.

(** The sum of the column widths. *)
Definition total (widths : list nat) : nat := fold_right Nat.add O widths.

(** What a call of the export or of [main] does to the world. *)
Inductive effect : Type :=
| Printed (line : pystr)
| Written (path : pystr) (content : pystr).

Definition printed (effects : list effect) : list pystr :=
  flat_map (fun e => match e with Printed l => [l] | Written _ _ => [] end) effects.

Definition written (effects : list effect) : list (pystr * pystr) :=
  flat_map (fun e => match e with Printed _ => [] | Written p c => [(p, c)] end) effects.

(** The parsed command line. *)
Record Args : Type := mkArgs {
  csv_file : pystr;
  arg_columns : option (list pystr);
  arg_bins : Z;
  arg_sample : option Z;
  arg_histogram_width : Z;
  arg_export : pystr;
  arg_output : option pystr;
  arg_all_stats : bool;
  arg_verbose : bool;
  arg_quiet : bool
}.

(** What a run of [main] leaves behind. *)
Record Run : Type := mkRun {
  stdout : list pystr;
  stderr : list pystr;
  files : list (pystr * pystr);
  exit_code : Z
}.

(** [str(e)]: a [KeyError] shows its key quoted. *)
Definition str_of_exn (e : exn) : pystr :=
  match e with
  | KeyError key => str "'" ++ key ++ str "'"
  | _ => exn_message e
  end.

Section Application.

Local Open Scope py_scope.

Variable read_csv : pystr -> outcome DataFrame.
Variable choice : Z -> nat -> nat -> list nat.
Variable sqrt : Q -> Q.
Variable skew_of : list Q -> npfloat.
Variable kurtosis_of : list Q -> npfloat.

(** [datetime.now().strftime('%Y-%m-%d %H:%M:%S')] *)
Variable now : pystr.

(** [os.path.exists(path)] *)
Variable path_exists : pystr -> bool.

(** What opening a path for writing answers. *)
Variable open_for_writing : pystr -> outcome unit.

(** The text [pd.DataFrame(all_stats).to_csv(index=False)] writes, and
    the text [json.dump(all_stats, f, indent=2, default=str)] writes. *)
Variable to_csv : list Stats.t -> pystr.
Variable json_dump : list Stats.t -> pystr.

(** Whether [import plotly.graph_objects] succeeds. *)
Variable plotly_installed : bool.

(** One row of the table: the name cut to 20 characters, the
    statistics, the inline histogram. *)
Definition table_row (self : CSVVisualizer) (st : Stats.t) : outcome (list pystr) :=
  match create_inline_histogram self (Stats.column st) with
  | Raised e => Raised e
  | Returned histogram =>
      Returned (firstn 20 (Stats.column st)
                :: map (fun key => stat_template key (stat_value key st))
                       (stat_keys (show_all_stats self))
                ++ [histogram])
  end.

(** The loop over [all_stats] of [format_statistics_table]: the rows and
    the column widths. *)
Fixpoint table_rows (self : CSVVisualizer) (all_stats : list Stats.t)
    (col_widths : list nat) : outcome (list (list pystr) * list nat) :=
  match all_stats with
  | [] => Returned ([], col_widths)
  | st :: rest =>
      match table_row self st with
      | Raised e => Raised e
      | Returned row =>
          match table_rows self rest (widen col_widths row) with
          | Raised e => Raised e
          | Returned (rows, final_widths) => Returned (row :: rows, final_widths)
          end
      end
  end.

(** The lines of the table, before they are joined. *)
Definition table_lines (self : CSVVisualizer) (all_stats : list Stats.t)
    : outcome (list pystr) :=
  let hs := headers (show_all_stats self) in
  match table_rows self all_stats (map (@length N) hs) with
  | Raised e => Raised e
  | Returned (rows, col_widths) =>
      let header_line := join (str " | ") (justified hs col_widths) in
      let separator :=
        join (str "-+-")
             (map (fun i => repeat 45%N (nth i col_widths O)) (seq 0 (length hs))) in
      Returned (header_line :: separator
                :: map (fun row => join (str " | ") (justified row col_widths)) rows)
  end.

(** [format_statistics_table] *)
Definition format_statistics_table (self : CSVVisualizer) (all_stats : list Stats.t)
    : outcome pystr :=
  match table_lines self all_stats with
  | Raised e => Raised e
  | Returned lines => Returned (join [10%N] lines)
  end.

(** [len(self.data)] *)
Definition data_len (self : CSVVisualizer) : outcome nat :=
  match data self with
  | Some df => Returned (df_len df)
  | None => Raised (TypeError (str "object of type 'NoneType' has no len()"))
  end.

(** The section of the detailed report for the [i]-th record. *)
Definition report_section (self : CSVVisualizer) (i : nat) (st : Stats.t)
    : outcome (list pystr) :=
  match create_ascii_histogram self (Stats.column st) with
  | Raised e => Raised e
  | Returned histogram =>
      Returned
        ([str_of_int (Z.of_nat i) ++ str ". " ++ Stats.column st ++ str ":";
          str "   Count: " ++ format_thousands (Stats.count st)
            ++ str ", Missing: " ++ format_thousands (Stats.missing st);
          str "   Range: [" ++ format_f 4 (Stats.min st) ++ str ", "
            ++ format_f 4 (Stats.max st) ++ str "], Mean: " ++ format_f 4 (Stats.mean st)
            ++ str ", Std: " ++ format_float 4 (Stats.std st);
          str "   Distribution:"]
         ++ map (fun line => str "   " ++ line) (split_on 10%N histogram)
         ++ [[]])
  end.

(** [for i, stats in enumerate(all_stats, i): ...] *)
Fixpoint report_sections (self : CSVVisualizer) (i : nat) (all_stats : list Stats.t)
    : outcome (list pystr) :=
  match all_stats with
  | [] => Returned []
  | st :: rest =>
      match report_section self i st with
      | Raised e => Raised e
      | Returned section =>
          match report_sections self (S i) rest with
          | Raised e => Raised e
          | Returned sections => Returned (section ++ sections)
          end
      end
  end.

(** The lines of the detailed report, before they are joined. *)
Definition report_lines (self : CSVVisualizer) (all_stats : list Stats.t)
    : outcome (list pystr) :=
  match data_len self with
  | Raised e => Raised e
  | Returned rows =>
      match format_statistics_table self all_stats with
      | Raised e => Raised e
      | Returned table =>
          match report_sections self 1 all_stats with
          | Raised e => Raised e
          | Returned sections =>
              Returned
                ([repeat 61%N 80;
                  str "CSV ANALYSIS REPORT: " ++ basename (csv_path self);
                  str "Generated: " ++ now;
                  str "Total Rows: " ++ format_thousands rows
                    ++ str ", Numeric Columns: "
                    ++ str_of_int (Z.of_nat (length (numeric_columns self)))]
                 ++ (match sample_size self with
                     | Some n =>
                         if truthy_int (Some n)
                         then [str "Sampled: " ++ str_of_int n ++ str " rows"]
                         else []
                     | None => []
                     end)
                 ++ [str "Histogram Bins: " ++ str_of_int (bins self)
                       ++ str ", Width: " ++ str_of_int (histogram_width self)
                       ++ str " chars";
                     repeat 61%N 80;
                     [];
                     str "SUMMARY STATISTICS:";
                     table;
                     [];
                     str "DETAILED HISTOGRAMS:";
                     []]
                 ++ sections)
          end
      end
  end.

(** [generate_detailed_report] *)
Definition generate_detailed_report (self : CSVVisualizer) (all_stats : list Stats.t)
    : outcome pystr :=
  match report_lines self all_stats with
  | Raised e => Raised e
  | Returned lines => Returned (join [10%N] lines)
  end.

(** [[self.calculate_statistics(c) for c in cols
      if self.calculate_statistics(c)]] *)
Fixpoint collect_statistics (self : CSVVisualizer) (cols : list pystr)
    : outcome (list Stats.t) :=
  match cols with
  | [] => Returned []
  | c :: rest =>
      match calculate_statistics sqrt skew_of kurtosis_of self c with
      | Raised e => Raised e
      | Returned None => collect_statistics self rest
      | Returned (Some _) =>
          match calculate_statistics sqrt skew_of kurtosis_of self c with
          | Raised e => Raised e
          | Returned None => collect_statistics self rest
          | Returned (Some st) =>
              match collect_statistics self rest with
              | Raised e => Raised e
              | Returned records => Returned (st :: records)
              end
          end
      end
  end.

(** [run_analysis] *)
Definition run_analysis : M (list Stats.t * pystr) :=
  load_and_prepare_data read_csv choice ;;;
  self <- get ;;
  all_stats <- lift (collect_statistics self (numeric_columns self)) ;;
  report <- lift (generate_detailed_report self all_stats) ;;
  ret (all_stats, report).

(** [export_html_report]: nothing is exported yet. *)
Definition export_html_report (self : CSVVisualizer) (all_stats : list Stats.t)
    (output_path : option pystr) : list effect * outcome unit :=
  if plotly_installed then ([], Returned tt)
  else
    (if quiet_mode self then []
     else [Printed (str "[WARNING] Plotly not installed. Install with: pip install plotly")],
     Returned tt).

(** [output_path] when it is given and not empty, else
    [f"{base_name}_statistics.{ext}"]. *)
Definition export_path (self : CSVVisualizer) (output_path : option pystr)
    (ext : pystr) : pystr :=
  match output_path with
  | Some (ch :: p) => ch :: p
  | _ => splitext_stem (basename (csv_path self)) ++ str "_statistics." ++ ext
  end.

(** Writing [content] to [path], then the notice. *)
Definition write_and_tell (self : CSVVisualizer) (path content : pystr)
    : list effect * outcome unit :=
  match open_for_writing path with
  | Raised e => ([], Raised e)
  | Returned _ =>
      (Written path content
       :: (if quiet_mode self then []
           else [Printed (str "[INFO] Statistics exported to " ++ path)]),
       Returned tt)
  end.

(** [export_results] *)
Definition export_results (self : CSVVisualizer) (all_stats : list Stats.t)
    (format : pystr) (output_path : option pystr) : list effect * outcome unit :=
  if pystr_eqb format (str "csv")
  then write_and_tell self (export_path self output_path (str "csv")) (to_csv all_stats)
  else if pystr_eqb format (str "json")
  then write_and_tell self (export_path self output_path (str "json")) (json_dump all_stats)
  else if pystr_eqb format (str "html")
  then export_html_report self all_stats output_path
  else
    (if quiet_mode self then []
     else [Printed (str "[WARNING] Export format '" ++ format ++ str "' not supported")],
     Returned tt).

(** The line [main] writes to the error stream. *)
Definition error_line (message : pystr) : pystr :=
  [10060%N] ++ str " Error: " ++ message.

(** The closing summary of [main]: the lines printed, and how the
    printing ended. *)
Definition summary (args : Args) (self : CSVVisualizer) : list pystr * outcome unit :=
  let opening :=
    [[10%N] ++ repeat 61%N 60;
     [9989%N] ++ str " Analysis complete!";
     repeat 61%N 60;
     str "  " ++ [128193%N] ++ str " File: " ++ csv_file args] in
  match data_len self with
  | Raised e => (opening, Raised e)
  | Returned rows =>
      (opening
       ++ [str "  " ++ [128202%N] ++ str " Rows analyzed: " ++ format_thousands rows;
           str "  " ++ [128200%N] ++ str " Columns analyzed: "
             ++ str_of_int (Z.of_nat (length (numeric_columns self)))]
       ++ (match arg_sample args with
           | Some n =>
               if truthy_int (Some n)
               then [str "  " ++ [127919%N] ++ str " Sample size: " ++ str_of_int n]
               else []
           | None => []
           end)
       ++ [str "  " ++ [128208%N] ++ str " Histogram bins: " ++ str_of_int (arg_bins args);
           repeat 61%N 60],
       Returned tt)
  end.

(** The object [main] builds from the command line. *)
Definition visualizer_of (args : Args) : CSVVisualizer :=
  set_quiet_mode
    (init (csv_file args) (arg_columns args) (arg_bins args) (arg_sample args)
          (arg_histogram_width args) (arg_all_stats args) 42)
    (arg_quiet args).

Definition failed (out : list pystr) (written_files : list (pystr * pystr)) (e : exn) : Run :=
  {| stdout := out; stderr := [error_line (str_of_exn e)];
     files := written_files; exit_code := 1 |}.

(** [main], from the parsed arguments on. *)
Definition main (args : Args) : Run :=
  if negb (path_exists (csv_file args))
  then {| stdout := [];
          stderr := [error_line (str "CSV file '" ++ csv_file args ++ str "' not found")];
          files := []; exit_code := 1 |}
  else
    match run_analysis (visualizer_of args) with
    | (_, out, Raised e) => failed out [] e
    | (visualizer, out, Returned (all_stats, report)) =>
        if pystr_eqb (arg_export args) (str "txt")
        then
          if arg_quiet args
          then {| stdout := out; stderr := []; files := []; exit_code := 0 |}
          else
            match summary args visualizer with
            | (closing, Raised e) => failed (out ++ [report] ++ closing) [] e
            | (closing, Returned _) =>
                {| stdout := out ++ [report] ++ closing; stderr := [];
                   files := []; exit_code := 0 |}
            end
        else
          match export_results visualizer all_stats (arg_export args) (arg_output args) with
          | (effects, Raised e) => failed (out ++ printed effects) (written effects) e
          | (effects, Returned _) =>
              {| stdout := out ++ printed effects; stderr := [];
                 files := written effects; exit_code := 0 |}
          end
    end.

End Application.

(** ** Text that fits on a line *)


(** ** Counting below a value *)


(** ** Example data for the report, the export and the command line *)

(** A clock that stands still. *)
Definition fixed_now : pystr := str "2024-01-01 00:00:00".

(** A file system in which every path exists and can be opened for
    writing, and one that holds no file to read. *)
Definition every_path_exists (path : pystr) : bool := true.

Definition writable (path : pystr) : outcome unit := Returned tt.

Definition no_files (path : pystr) : outcome DataFrame :=
  Raised (FileNotFoundError (str "No such file or directory")).

(** A serializer that writes the column names only, one to a line. *)
Definition names_only (all_stats : list Stats.t) : pystr :=
  join [10%N] (map Stats.column all_stats).

(** The command line [data/simple.csv --export EXPORT], with [--quiet]
    when [quiet] holds. *)
Definition simple_args (export : pystr) (quiet : bool) : Args :=
  {| csv_file := str "data/simple.csv"; arg_columns := None; arg_bins := 10;
     arg_sample := None; arg_histogram_width := 20; arg_export := export;
     arg_output := None; arg_all_stats := false; arg_verbose := false;
     arg_quiet := quiet |}.





(** A fresh visualizer asking for [height], [age] and [age] again. *)
Definition filtering_reordered : CSVVisualizer :=
  init (str "simple.csv") (Some [str "height"; str "age"; str "age"]) 10 None 20 false 42.

(** * Properties *)

Local Open Scope Q_scope.

(** ** Strings *)

Lemma pystr_eqb_eq (a b : pystr) : pystr_eqb a b = true <-> a = b.
Proof.
  unfold pystr_eqb. destruct (list_eq_dec N.eq_dec a b); split; congruence.
Qed.

Lemma mem_In (c : pystr) (names : list pystr) : mem c names = true <-> In c names.
Proof.
  unfold mem. rewrite existsb_exists. split.
  - intros [x [Hin Heq]]. apply pystr_eqb_eq in Heq. now subst.
  - intros Hin. exists c. split; [assumption | now apply pystr_eqb_eq].
Qed.

(** ** Order statistics *)


































(** ** Facts about np.histogram *)













Lemma present_length {A : Type} (cells : list (option A)) :
  length (filter is_some cells) = length (present cells).
Proof.
  induction cells as [| [x |] cells IH]; simpl; [reflexivity | now rewrite IH | exact IH].
Qed.

Lemma present_filter {A : Type} (cells : list (option A)) :
  present (filter is_some cells) = present cells.
Proof.
  induction cells as [| [x |] cells IH]; simpl; [reflexivity | now rewrite IH | exact IH].
Qed.

Lemma concat_singletons {A : Type} (l : list A) : concat (map (fun ch => [ch]) l) = l.
Proof. induction l as [| x l IH]; simpl; [reflexivity | now rewrite IH]. Qed.

(** ** The loader *)

Ltac run :=
  cbv beta iota zeta delta [bind get lift modify ret raise when print try_except].

Ltac finish_load Hloop :=
  destruct (truthy_list (columns _)), (quiet_mode _); cbn [negb andb];
  rewrite ?Hloop;
  match goal with |- context [match ?l with [] => _ | _ :: _ => _ end] =>
    destruct l end;
  cbn [app]; rewrite ?app_nil_r; reflexivity.

(** A loop whose body only prints leaves the object as it was. *)
Lemma for_each_prints {A : Type} (xs : list A) (body : A -> M unit)
    (lines : A -> list pystr) :
  (forall x s, body x s = (s, lines x, Returned tt)) ->
  forall s, for_each xs body s = (s, flat_map lines xs, Returned tt).
Proof.
  intros Hbody. induction xs as [| x xs IH]; intros s; [reflexivity |].
  cbn [for_each flat_map]. unfold bind. now rewrite Hbody, IH.
Qed.

(** [load_and_prepare_data] computes [load_closed_form]. *)
Lemma load_closed_form_eq (read_csv : pystr -> outcome DataFrame)
    (choice : Z -> nat -> nat -> list nat) (self : CSVVisualizer) :
  load_and_prepare_data read_csv choice self = load_closed_form read_csv choice self.
Proof.
  unfold load_and_prepare_data, load_closed_form, load_body,
    after_sampling, sampling_notice, selection, warnings.
  run.
  destruct (read_csv (csv_path self)) as [df0 | e]; [| reflexivity].
  destruct (df_empty df0); [reflexivity |].
  assert (Hloop : forall df s,
    for_each (or_empty (columns self))
      (fun c => if negb (mem c (df_names df))
                then fun s0 => (s0, [warning_not_found c], Returned tt)
                else fun s0 => (s0, [], Returned tt)) s =
    (s, flat_map (fun c => if negb (mem c (df_names df)) then [warning_not_found c] else [])
          (or_empty (columns self)), Returned tt)).
  { intros df s. apply for_each_prints. intros x s0. now destruct (mem x (df_names df)). }
  destruct (sample_size self) as [n |].
  - destruct (truthy_int (Some n)); [destruct (n <? Z.of_nat (df_len df0))%Z |].
    + destruct (df_sample choice df0 n (random_state self)) as [df | e]; [| reflexivity].
      finish_load Hloop.
    + finish_load Hloop.
    + finish_load Hloop.
  - finish_load Hloop.
Qed.

(** ** Statistics *)

Lemma cv_of_returns (std : npfloat) (mean : Q) :
  cv_of std mean =
  Returned (if Qeq_bool mean 0 then Finite 0 else quotient std mean).
Proof.
  unfold cv_of, np_divide. now destruct (Qeq_bool mean 0).
Qed.


Lemma cells_partition {A : Type} (cells : list (option A)) :
  (length (filter is_some cells) + length (filter is_none cells) = length cells)%nat.
Proof.
  induction cells as [| [x |] cells IH]; simpl; lia.
Qed.

Lemma count_plus_isna (series : Series) :
  (series_len (dropna series) + isna_sum series = series_len series)%nat.
Proof. destruct series as [cells | cells]; simpl; apply cells_partition. Qed.

Lemma lookup_In (c : pystr) (cols : list (pystr * Series)) (s : Series) :
  lookup c cols = Some s -> In (c, s) cols.
Proof.
  induction cols as [| [name s'] cols IH]; simpl; [discriminate |].
  destruct (pystr_eqb c name) eqn:E.
  - apply pystr_eqb_eq in E. intros H. injection H as ->. left. now subst.
  - intros H. right. now apply IH.
Qed.

(** The record [calculate_statistics] builds, field by field. *)
Lemma calculate_statistics_inv (sqrt : Q -> Q) (skew_of kurtosis_of : list Q -> npfloat)
    (self : CSVVisualizer) (column : pystr) (st : Stats.t) :
  calculate_statistics sqrt skew_of kurtosis_of self column = Returned (Some st) ->
  exists series xs,
    self_column self column = Returned series /\
    numbers (dropna series) = Returned xs /\ xs <> [] /\
    Stats.count st = series_len (dropna series) /\
    Stats.missing st = isna_sum series /\
    Stats.min st = series_min xs /\ Stats.max st = series_max xs /\
    Stats.mean st = series_mean xs /\ Stats.median st = series_median xs /\
    Stats.q25 st = series_quantile (1 # 4) xs /\
    Stats.q75 st = series_quantile (3 # 4) xs /\
    Stats.std st = series_std sqrt xs /\
    Stats.range st = series_max xs - series_min xs /\
    Stats.iqr st = series_quantile (3 # 4) xs - series_quantile (1 # 4) xs /\
    Stats.cv st = (if Qeq_bool (series_mean xs) 0 then Finite 0
                   else quotient (series_std sqrt xs) (series_mean xs)).
Proof.
  unfold calculate_statistics.
  destruct (self_column self column) as [series | e]; [| discriminate].
  destruct (series_len (dropna series) =? 0)%nat eqn:Hlen; [discriminate |].
  destruct (numbers (dropna series)) as [xs | e] eqn:Hxs; [| discriminate].
  rewrite cv_of_returns. intros H. injection H as <-.
  exists series, xs. cbn.
  assert (Hne : xs <> []).
  { apply Nat.eqb_neq in Hlen. intros ->. apply Hlen.
    destruct series as [cells | cells]; simpl in Hxs; [| discriminate].
    injection Hxs as Hxs. rewrite present_filter in Hxs.
    simpl. now rewrite present_length, Hxs. }
  repeat split; try reflexivity; assumption.
Qed.

Section Statistics.

Variable sqrt : Q -> Q.
Variable skew_of : list Q -> npfloat.
Variable kurtosis_of : list Q -> npfloat.





End Statistics.

(** ** Histogram renders *)




Lemma Returned_inj {A : Type} (a b : A) : Returned a = Returned b -> a = b.
Proof. congruence. Qed.
















(** ** Loading *)

Lemma df_take_len (positions : list nat) (df : DataFrame) :
  df_len (df_take positions df) = length positions.
Proof. unfold df_len, df_take. simpl. apply length_map. Qed.

Lemma df_take_well_formed (positions : list nat) (df : DataFrame) :
  well_formed (df_take positions df).
Proof.
  unfold well_formed, df_take. simpl. apply Forall_forall.
  intros [name s] Hin. apply in_map_iff in Hin. destruct Hin as [[name' s'] [Heq _]].
  injection Heq as _ <-. simpl.
  rewrite length_map. destruct s'; simpl; unfold take; now rewrite length_map.
Qed.

Lemma select_dtypes_number_names (df : DataFrame) (c : pystr) :
  In c (select_dtypes_number df) -> In c (df_names df).
Proof.
  unfold select_dtypes_number, df_names. intros H.
  apply in_map_iff in H. destruct H as [col [Hc Hin]].
  apply filter_In in Hin. apply in_map_iff. exists col. tauto.
Qed.

(** Membership in the selection: a number column, with a value present,
    and named by the filter when there is one. *)
Lemma selection_In (self : CSVVisualizer) (df : DataFrame) (c : pystr) :
  In c (selection self df) <->
  In c (select_dtypes_number df) /\
  (exists s, lookup c (df_columns df) = Some s /\ notna_any s = true) /\
  match columns self with
  | Some (x :: f) => In c (x :: f)
  | _ => True
  end.
Proof.
  assert (Hdrop : In c (drop_all_nan df (select_dtypes_number df)) <->
                  In c (select_dtypes_number df) /\
                  exists s, lookup c (df_columns df) = Some s /\ notna_any s = true).
  { unfold drop_all_nan. rewrite filter_In. split.
    - intros [Hin Hany]. split; [exact Hin |].
      destruct (lookup c (df_columns df)) as [s |]; [| discriminate]. now exists s.
    - intros [Hin [s [Hl Hany]]]. split; [exact Hin |]. now rewrite Hl. }
  unfold selection.
  destruct (columns self) as [[| x f] |]; cbn [truthy_list or_empty]; try tauto.
  rewrite filter_In, Hdrop, mem_In, filter_In, mem_In. split.
  - tauto.
  - intros [Hnum [Hany Hf]]. repeat split; try assumption.
    now apply select_dtypes_number_names.
Qed.

Lemma warnings_In (self : CSVVisualizer) (df : DataFrame) (c : pystr) :
  quiet_mode self = false ->
  In c (or_empty (columns self)) -> ~ In c (df_names df) ->
  In (warning_not_found c) (warnings self df).
Proof.
  intros Hq Hin Hnot. unfold warnings.
  assert (Ht : truthy_list (columns self) = true).
  { destruct (columns self) as [[| x f] |]; simpl in Hin; tauto. }
  rewrite Ht, Hq. cbn [negb andb]. apply in_flat_map. exists c. split; [exact Hin |].
  destruct (mem c (df_names df)) eqn:E; [apply mem_In in E; contradiction |].
  simpl. now left.
Qed.

Lemma after_sampling_cases (choice : Z -> nat -> nat -> list nat)
    (self : CSVVisualizer) (df0 : DataFrame) :
  after_sampling choice self df0 =
  match sample_size self with
  | Some n =>
      if (n <? 0)%Z
      then Raised (ValueError
             (str "A negative number of rows requested. Please provide `n` >= 0."))
      else if ((n =? 0) || (Z.of_nat (df_len df0) <=? n))%Z then Returned df0
      else Returned (df_take (choice (random_state self) (df_len df0) (Z.to_nat n)) df0)
  | None => Returned df0
  end.
Proof.
  unfold after_sampling, df_sample, truthy_int.
  destruct (sample_size self) as [n |]; [| reflexivity].
  destruct (Z.ltb_spec n 0), (Z.eqb_spec n 0),
    (Z.ltb_spec n (Z.of_nat (df_len df0))), (Z.leb_spec (Z.of_nat (df_len df0)) n),
    (Z.ltb_spec (Z.of_nat (df_len df0)) n); cbn [negb andb orb];
    try reflexivity; lia.
Qed.

Lemma after_sampling_well_formed (choice : Z -> nat -> nat -> list nat)
    (self : CSVVisualizer) (df0 df : DataFrame) :
  well_formed df0 -> after_sampling choice self df0 = Returned df -> well_formed df.
Proof.
  intros Hwf. rewrite after_sampling_cases.
  destruct (sample_size self) as [n |]; [| congruence].
  destruct (n <? 0)%Z; [discriminate |].
  destruct ((n =? 0) || (Z.of_nat (df_len df0) <=? n))%Z; [congruence |].
  intros H. injection H as <-. apply df_take_well_formed.
Qed.

Section Loading.

Variable read_csv : pystr -> outcome DataFrame.
Variable choice : Z -> nat -> nat -> list nat.

(** What a successful load leaves in the object. *)
Lemma load_success (self self' : CSVVisualizer) (out : list pystr) :
  load_and_prepare_data read_csv choice self = (self', out, Returned tt) ->
  exists df0 df,
    read_csv (csv_path self) = Returned df0 /\
    after_sampling choice self df0 = Returned df /\
    data self' = Some df /\
    numeric_columns self' = selection self df.
Proof.
  rewrite load_closed_form_eq. unfold load_closed_form.
  destruct (read_csv (csv_path self)) as [df0 | e]; [| discriminate].
  destruct (df_empty df0); [discriminate |].
  destruct (after_sampling choice self df0) as [df | e] eqn:Hsamp; [| discriminate].
  cbv zeta. intros H. injection H as <- _ _. exists df0, df. now repeat split.
Qed.

(** C5, amended.  For a source of N rows and a requested sample size S:
    if 1 <= S < N the loaded dataset has exactly S rows, and if S >= N,
    or S is 0, it is the dataset as read.  ([DataFrame.sample] is asked
    for no more than to return as many rows as requested.) *)
Theorem sampling_row_count (self self' : CSVVisualizer) (df0 : DataFrame) (S : Z)
    (out : list pystr) (r : outcome unit) :
  (forall seed population n,
      (n <= population)%nat -> length (choice seed population n) = n) ->
  read_csv (csv_path self) = Returned df0 ->
  df_empty df0 = false ->
  sample_size self = Some S ->
  load_and_prepare_data read_csv choice self = (self', out, r) ->
  ((1 <= S < Z.of_nat (df_len df0))%Z ->
     exists df, data self' = Some df /\ Z.of_nat (df_len df) = S) /\
  ((S = 0 \/ Z.of_nat (df_len df0) <= S)%Z -> data self' = Some df0).
Proof.
  intros Hchoice Hread Hne Hs Hload.
  rewrite load_closed_form_eq in Hload. unfold load_closed_form in Hload.
  rewrite Hread, Hne, after_sampling_cases, Hs in Hload.
  split.
  - intros [H1 HN].
    destruct (S <? 0)%Z eqn:E1; [lia |].
    destruct ((S =? 0) || (Z.of_nat (df_len df0) <=? S))%Z eqn:E2; [lia |].
    injection Hload as <- _ _. eexists. split; [reflexivity |].
    rewrite df_take_len, Hchoice by lia. lia.
  - intros H.
    destruct (S <? 0)%Z eqn:E1; [lia |].
    destruct ((S =? 0) || (Z.of_nat (df_len df0) <=? S))%Z eqn:E2; [| lia].
    now injection Hload as <- _ _.
Qed.

(** C9.  When the source is read, holds data and the sampling step does
    not fail, the selection is the number columns of the loaded frame
    that have a value present, restricted to the column filter when one
    is given; every filter name the frame lacks is warned about (unless
    quiet) and by itself fails nothing; and loading fails, with "No
    numeric columns found", if and only if the selection is empty. *)
Theorem column_selection (self self' : CSVVisualizer) (df0 : DataFrame)
    (out : list pystr) (r : outcome unit) :
  read_csv (csv_path self) = Returned df0 ->
  df_empty df0 = false ->
  (forall n, sample_size self = Some n -> (0 <= n)%Z) ->
  load_and_prepare_data read_csv choice self = (self', out, r) ->
  exists df,
    data self' = Some df /\
    (forall c,
       In c (numeric_columns self') <->
       In c (select_dtypes_number df) /\
       (exists s, lookup c (df_columns df) = Some s /\ notna_any s = true) /\
       match columns self with
       | Some (x :: f) => In c (x :: f)
       | _ => True
       end) /\
    (forall c,
       quiet_mode self = false ->
       In c (or_empty (columns self)) -> ~ In c (df_names df) ->
       In (warning_not_found c) out) /\
    (r = Raised (ValueError (str "No numeric columns found")) <->
     numeric_columns self' = []) /\
    (numeric_columns self' <> [] -> r = Returned tt).
Proof.
  intros Hread Hne Hs Hload.
  rewrite load_closed_form_eq in Hload. unfold load_closed_form in Hload.
  rewrite Hread, Hne in Hload.
  assert (Hdf : exists df, after_sampling choice self df0 = Returned df).
  { rewrite after_sampling_cases. destruct (sample_size self) as [n |]; [| now eexists].
    specialize (Hs n eq_refl). destruct (n <? 0)%Z eqn:E; [lia |].
    destruct ((n =? 0) || (Z.of_nat (df_len df0) <=? n))%Z; now eexists. }
  destruct Hdf as [df Hdf]. rewrite Hdf in Hload. cbv zeta in Hload.
  injection Hload as <- <- <-. exists df. cbn [data numeric_columns set_numeric_columns set_data].
  split; [reflexivity |]. split; [apply selection_In |].
  split.
  - intros c Hq Hin Hnot. apply in_or_app. right. now apply warnings_In.
  - destruct (selection self df) as [| c cols].
    + split; [split; reflexivity | congruence].
    + split; [split; discriminate | reflexivity].
Qed.


(** C3.  After a successful load of a well-formed source, for every
    column of the loaded dataset the count and the missing count that
    [calculate_statistics] reports add up to the dataset's row count. *)
Theorem count_plus_missing (sqrt : Q -> Q) (skew_of kurtosis_of : list Q -> npfloat)
    (self self' : CSVVisualizer) (out : list pystr) (df : DataFrame)
    (column : pystr) (st : Stats.t) :
  (forall path d, read_csv path = Returned d -> well_formed d) ->
  load_and_prepare_data read_csv choice self = (self', out, Returned tt) ->
  data self' = Some df ->
  calculate_statistics sqrt skew_of kurtosis_of self' column = Returned (Some st) ->
  (Stats.count st + Stats.missing st)%nat = df_len df.
Proof.
  intros Hwf Hload Hdata Hst.
  destruct (load_success self self' out Hload) as (df0 & df' & Hread & Hsamp & Hdata' & _).
  rewrite Hdata in Hdata'. injection Hdata' as <-.
  assert (Hdf : well_formed df).
  { apply (after_sampling_well_formed choice self df0 df); [| exact Hsamp].
    now apply (Hwf (csv_path self)). }
  destruct (calculate_statistics_inv _ _ _ _ _ _ Hst)
    as (series & xs & Hcol & _ & _ & Hcount & Hmiss & _).
  rewrite Hcount, Hmiss, count_plus_isna.
  unfold self_column in Hcol. rewrite Hdata in Hcol. unfold df_get in Hcol.
  destruct (lookup column (df_columns df)) as [s |] eqn:Hl; [| discriminate].
  injection Hcol as ->. apply lookup_In in Hl.
  unfold well_formed in Hdf. rewrite Forall_forall in Hdf.
  apply (Hdf _ Hl).
Qed.

End Loading.

(** ** The properties at work on the example data *)

Lemma simple_files_well_formed (path : pystr) (d : DataFrame) :
  simple_files path = Returned d -> well_formed d.
Proof.
  intros H. injection H as <-. unfold well_formed, simple_frame. simpl.
  repeat constructor.
Qed.

Lemma head_choice_length (seed : Z) (population n : nat) :
  (n <= population)%nat -> length (head_choice seed population n) = n.
Proof. intros _. apply length_seq. Qed.



(** C3 on the [age] column, after loading the test suite's file. *)
Lemma count_plus_missing_witness :
  load_and_prepare_data simple_files head_choice
    (init (str "simple.csv") None 10 None 20 false 42)
    = (simple_visualizer, [], Returned tt) /\
  data simple_visualizer = Some simple_frame /\
  exists st,
    calculate_statistics floor_sqrt no_moment no_moment simple_visualizer (str "age")
      = Returned (Some st) /\
    (Stats.count st + Stats.missing st)%nat = df_len simple_frame.
Proof.
  split; [vm_compute; reflexivity |]. split; [reflexivity |].
  eexists. split; [vm_compute; reflexivity |].
  apply (count_plus_missing simple_files head_choice floor_sqrt no_moment no_moment
           (init (str "simple.csv") None 10 None 20 false 42) simple_visualizer []
           simple_frame (str "age")).
  - exact simple_files_well_formed.
  - vm_compute. reflexivity.
  - reflexivity.
  - vm_compute. reflexivity.
Defined.


(** C5 as stated fails for the sample size 0, which the guard of the
    sampling block takes for no request: 0 < 5, and the five rows
    stay. *)
Lemma sample_size_zero_keeps_all_rows :
  simple_files (csv_path (sampling 0)) = Returned simple_frame /\
  sample_size (sampling 0) = Some 0%Z /\
  (0 < Z.of_nat (df_len simple_frame))%Z /\
  exists self' out r,
    load_and_prepare_data simple_files head_choice (sampling 0) = (self', out, r) /\
    data self' = Some simple_frame /\
    Z.of_nat (df_len simple_frame) <> 0%Z.
Proof.
  split; [reflexivity |]. split; [reflexivity |]. split; [simpl; lia |].
  eexists. eexists. eexists. split; [vm_compute; reflexivity |].
  split; [reflexivity | simpl; lia].
Defined.

(** C5 for a sample of 2 of the 5 rows. *)
Lemma sampling_row_count_witness :
  exists self' out r,
    load_and_prepare_data simple_files head_choice (sampling 2) = (self', out, r) /\
    ((1 <= 2 < Z.of_nat (df_len simple_frame))%Z ->
       exists df, data self' = Some df /\ Z.of_nat (df_len df) = 2%Z) /\
    ((2 = 0 \/ Z.of_nat (df_len simple_frame) <= 2)%Z -> data self' = Some simple_frame).
Proof.
  eexists. eexists. eexists. split; [vm_compute; reflexivity |].
  eapply (sampling_row_count simple_files head_choice (sampling 2)) with (df0 := simple_frame).
  - exact head_choice_length.
  - reflexivity.
  - reflexivity.
  - reflexivity.
  - vm_compute. reflexivity.
Defined.



(** C9 on a request for [age] and for [height], which the file lacks. *)
Lemma column_selection_witness :
  exists self' out r,
    load_and_prepare_data simple_files head_choice filtering = (self', out, r) /\
    numeric_columns self' = [str "age"] /\
    out = [str "[WARNING] Column 'height' not found in CSV file"] /\
    r = Returned tt /\
    exists df,
      data self' = Some df /\
      (forall c,
         In c (numeric_columns self') <->
         In c (select_dtypes_number df) /\
         (exists s, lookup c (df_columns df) = Some s /\ notna_any s = true) /\
         match columns filtering with
         | Some (x :: f) => In c (x :: f)
         | _ => True
         end) /\
      (forall c,
         quiet_mode filtering = false ->
         In c (or_empty (columns filtering)) -> ~ In c (df_names df) ->
         In (warning_not_found c) out) /\
      (r = Raised (ValueError (str "No numeric columns found")) <->
       numeric_columns self' = []) /\
      (numeric_columns self' <> [] -> r = Returned tt).
Proof.
  eexists. eexists. eexists. split; [vm_compute; reflexivity |].
  split; [reflexivity |]. split; [reflexivity |]. split; [reflexivity |].
  eapply (column_selection simple_files head_choice filtering) with (df0 := simple_frame).
  - reflexivity.
  - reflexivity.
  - intros n H. discriminate H.
  - vm_compute. reflexivity.
Defined.


(** ** The scenarios of the specification *)

(** The [age] column [30, 25, 35, 28, 40]: count 5, min 25, max 40,
    mean 31.6, median 30, nothing missing. *)
Example age_statistics :
  exists st,
    calculate_statistics floor_sqrt no_moment no_moment simple_visualizer (str "age")
      = Returned (Some st) /\
    Stats.count st = 5%nat /\ Stats.missing st = 0%nat /\
    Stats.min st == 25 /\ Stats.max st == 40 /\
    Stats.mean st == 316 # 10 /\ Stats.median st == 30.
Proof.
  eexists. split; [vm_compute; reflexivity |].
  repeat split; reflexivity.
Qed.

(** The column [1.0, 2.0] is drawn: a full block in the first and in the
    last of the ten bins. *)
Example two_values_inline :
  create_inline_histogram two_values (str "a")
  = Returned [9608; 32; 32; 32; 32; 32; 32; 32; 32; 9608]%N.
Proof. vm_compute. reflexivity. Qed.

(** A single value is not: both renders answer with the text. *)
Example one_value_insufficient :
  let self := set_data (init (str "one.csv") None 10 None 20 false 42)
                       (one_column (str "a") [Some 1]) in
  create_inline_histogram self (str "a") = Returned insufficient /\
  create_ascii_histogram self (str "a") = Returned insufficient.
Proof. split; reflexivity. Qed.

(** A frame whose only number column is all missing has no selection,
    and loading it fails. *)
Example all_missing_fails :
  let frame := one_column (str "col1") [None; None] in
  let self := init (str "nan.csv") None 10 None 20 false 42 in
  snd (load_and_prepare_data (fun _ => Returned frame) head_choice self)
  = Raised (ValueError (str "No numeric columns found")).
Proof. vm_compute. reflexivity. Qed.

(** * Beyond the specification's own sentences *)

Local Open Scope Q_scope.

(** * Further properties of the loader *)


Lemma quiet_load_silent (read_csv : pystr -> outcome DataFrame)
    (choice : Z -> nat -> nat -> list nat) (self : CSVVisualizer) :
  quiet_mode self = true ->
  snd (fst (load_and_prepare_data read_csv choice self)) = [].
Proof.
  intros Hq. rewrite load_closed_form_eq. unfold load_closed_form.
  destruct (read_csv (csv_path self)) as [df0 | e]; [| reflexivity].
  destruct (df_empty df0); [reflexivity |].
  destruct (after_sampling choice self df0) as [df | e]; [| reflexivity].
  cbv zeta. cbn [fst snd]. unfold sampling_notice, warnings. rewrite Hq.
  rewrite andb_false_r.
  destruct (sample_size self) as [n |]; [| reflexivity].
  now destruct (truthy_int (Some n) && (n <? Z.of_nat (df_len df0))%Z).
Qed.

Section LoaderEdges.

Variable read_csv : pystr -> outcome DataFrame.
Variable choice : Z -> nat -> nat -> list nat.

Lemma after_sampling_raises (self : CSVVisualizer) (df0 : DataFrame) (e : exn) :
  after_sampling choice self df0 = Raised e ->
  exists n, sample_size self = Some n /\ (n < 0)%Z /\
    e = ValueError (str "A negative number of rows requested. Please provide `n` >= 0.").
Proof.
  rewrite after_sampling_cases.
  destruct (sample_size self) as [n |]; [| discriminate].
  destruct (Z.ltb_spec n 0) as [Hneg | Hpos].
  - intros Heq. injection Heq as <-. exists n. now repeat split.
  - destruct ((n =? 0) || (Z.of_nat (df_len df0) <=? n))%Z; discriminate.
Qed.

(** X1.  [load_and_prepare_data] raises nothing but a
    [FileNotFoundError], a [ValueError] or a [RuntimeError]:
    [FileNotFoundError] exactly when [pd.read_csv] raised one, and then
    with a message naming the path; [RuntimeError] exactly when
    [pd.read_csv] raised something that is neither that, nor an
    [EmptyDataError], nor a [ValueError]. *)
Theorem load_error_classes (self : CSVVisualizer) :
  let r := snd (load_and_prepare_data read_csv choice self) in
  (r = Returned tt \/
   exists m, r = Raised (FileNotFoundError m) \/ r = Raised (ValueError m)
             \/ r = Raised (RuntimeError m)) /\
  ((exists m, r = Raised (FileNotFoundError m)) <->
   (exists m, read_csv (csv_path self) = Raised (FileNotFoundError m))) /\
  (forall m, r = Raised (FileNotFoundError m) ->
     m = str "CSV file not found: " ++ csv_path self) /\
  ((exists m, r = Raised (RuntimeError m)) <->
   (exists e, read_csv (csv_path self) = Raised e /\
      match e with
      | FileNotFoundError _ | EmptyDataError _ | ValueError _ => False
      | _ => True
      end)).
Proof.
  cbv zeta. rewrite load_closed_form_eq. unfold load_closed_form.
  destruct (read_csv (csv_path self)) as [df0 | e] eqn:Hread.
  - assert (Hno : forall e0, Returned df0 = Raised e0 -> False) by discriminate.
    destruct (df_empty df0).
    + cbn [snd]. split; [| split; [| split]].
      * right. eexists. right. left. reflexivity.
      * split; intros [m H]; discriminate.
      * discriminate.
      * split; [intros [m H]; discriminate | intros [e [H _]]; discriminate].
    + destruct (after_sampling choice self df0) as [df | e] eqn:Hs.
      * cbv zeta. cbn [snd]. unfold no_numeric_columns.
        split; [| split; [| split]].
        -- destruct (selection self df); [right; eexists; right; left; reflexivity | now left].
        -- split; intros [m H]; [destruct (selection self df) |]; discriminate.
        -- destruct (selection self df); discriminate.
        -- split; [intros [m H]; destruct (selection self df); discriminate
                  | intros [e [H _]]; discriminate].
      * apply after_sampling_raises in Hs. destruct Hs as (n & _ & _ & ->).
        cbn [snd load_handler]. split; [| split; [| split]].
        -- right. eexists. right. left. reflexivity.
        -- split; intros [m H]; discriminate.
        -- discriminate.
        -- split; [intros [m H]; discriminate | intros [e [H _]]; discriminate].
  - cbn [snd]. split; [| split; [| split]].
    + right. destruct e; cbn [load_handler]; eexists;
        solve [left; reflexivity | right; left; reflexivity | right; right; reflexivity].
    + split.
      * intros [m H]. destruct e; cbn [load_handler] in H; try discriminate. now eexists.
      * intros [m H]. injection H as ->. cbn [load_handler]. now eexists.
    + intros m H. destruct e; cbn [load_handler] in H; try discriminate.
      now injection H as <-.
    + split.
      * intros [m H]. exists e. split; [reflexivity |].
        destruct e; cbn [load_handler] in H; try discriminate; exact I.
      * intros [e' [H He']]. injection H as <-.
        destruct e; try contradiction; cbn [load_handler]; now eexists.
Qed.

(** X2.  A negative sample size makes the load fail with the
    [ValueError] of [DataFrame.sample]; by then the whole frame is in
    [self.data], nothing was printed and [self.numeric_columns] is as it
    was. *)
Theorem negative_sample_size_fails (self : CSVVisualizer) (df0 : DataFrame) (n : Z) :
  read_csv (csv_path self) = Returned df0 ->
  df_empty df0 = false ->
  sample_size self = Some n -> (n < 0)%Z ->
  load_and_prepare_data read_csv choice self =
  (set_data self df0, [],
   Raised (ValueError
     (str "A negative number of rows requested. Please provide `n` >= 0."))).
Proof.
  intros Hread Hne Hs Hn.
  rewrite load_closed_form_eq. unfold load_closed_form.
  rewrite Hread, Hne, after_sampling_cases, Hs.
  destruct (Z.ltb_spec n 0); [reflexivity | lia].
Qed.

(** X3.  In quiet mode [load_and_prepare_data] prints nothing, whatever
    it does and however it ends. *)
Theorem quiet_load_prints_nothing (self : CSVVisualizer) :
  quiet_mode self = true ->
  snd (fst (load_and_prepare_data read_csv choice self)) = [].
Proof. apply quiet_load_silent. Qed.

End LoaderEdges.

(** * Further properties of the selection *)

Lemma lookup_own (c : pystr) (s : Series) (rest : list (pystr * Series)) :
  lookup c ((c, s) :: rest) = Some s.
Proof.
  cbn [lookup]. now rewrite (proj2 (pystr_eqb_eq c c) eq_refl).
Qed.

Lemma lookup_other (c name : pystr) (s : Series) (rest : list (pystr * Series)) :
  c <> name -> lookup c ((name, s) :: rest) = lookup c rest.
Proof.
  intros Hne. cbn [lookup]. destruct (pystr_eqb c name) eqn:E; [| reflexivity].
  apply pystr_eqb_eq in E. contradiction.
Qed.

(** With distinct names, filtering the columns on their series is
    filtering the header on what each name looks up. *)
Lemma filter_columns_by_name (p : Series -> bool) (cols : list (pystr * Series)) :
  NoDup (map fst cols) ->
  map fst (filter (fun c => p (snd c)) cols) =
  filter (fun c => match lookup c cols with Some s => p s | None => false end)
         (map fst cols).
Proof.
  induction cols as [| [name s] cols IH]; intros Hnd; [reflexivity |].
  cbn [map fst] in Hnd. inversion Hnd as [| ? ? Hnotin Hnd']; subst.
  cbn [filter map fst snd]. rewrite lookup_own.
  assert (Htail : filter (fun c => match lookup c ((name, s) :: cols) with
                                   | Some s0 => p s0 | None => false end) (map fst cols)
                  = filter (fun c => match lookup c cols with
                                     | Some s0 => p s0 | None => false end) (map fst cols)).
  { apply filter_ext_in. intros c Hc. rewrite lookup_other; [reflexivity |].
    intros ->. contradiction. }
  rewrite Htail, <- (IH Hnd'). now destruct (p s).
Qed.

Lemma filter_filter {A : Type} (f g : A -> bool) (l : list A) :
  filter f (filter g l) = filter (fun x => g x && f x) l.
Proof.
  induction l as [| x l IH]; [reflexivity |].
  cbn [filter]. destruct (g x); cbn [filter andb]; rewrite IH; reflexivity.
Qed.

Lemma selection_is_filtered_header (self : CSVVisualizer) (df : DataFrame) :
  NoDup (df_names df) ->
  selection self df = filter (chosen self df) (df_names df).
Proof.
  intros Hnd. unfold selection, drop_all_nan, select_dtypes_number, df_names in *.
  rewrite (filter_columns_by_name is_number _ Hnd).
  destruct (truthy_list (columns self)) eqn:Ht.
  - rewrite !filter_filter. apply filter_ext_in. intros c Hc.
    unfold chosen. rewrite Ht.
    assert (Hm : mem c (filter (fun c0 => mem c0 (map fst (df_columns df)))
                          (or_empty (columns self)))
                 = mem c (or_empty (columns self))).
    { apply eq_true_iff_eq. rewrite !mem_In, filter_In, mem_In. tauto. }
    rewrite Hm. destruct (lookup c (df_columns df)) as [s |]; [apply andb_assoc | reflexivity].
  - rewrite filter_filter. apply filter_ext. intros c. unfold chosen.
    rewrite Ht, andb_true_r.
    now destruct (lookup c (df_columns df)) as [s |].
Qed.

Section SelectionOrder.

Variable read_csv : pystr -> outcome DataFrame.
Variable choice : Z -> nat -> nat -> list nat.

(** X4.  After a successful load of a frame with distinct column names,
    [self.numeric_columns] is the header of the loaded frame with the
    names not selected struck out: the columns come in header order,
    each once, whatever the order of the filter. *)
Theorem selection_in_header_order (self self' : CSVVisualizer) (out : list pystr)
    (df : DataFrame) :
  load_and_prepare_data read_csv choice self = (self', out, Returned tt) ->
  data self' = Some df ->
  NoDup (df_names df) ->
  numeric_columns self' = filter (chosen self df) (df_names df) /\
  NoDup (numeric_columns self').
Proof.
  intros Hload Hdata Hnd.
  destruct (load_success read_csv choice self self' out Hload)
    as (df0 & df' & _ & _ & Hdata' & Hsel).
  rewrite Hdata in Hdata'. injection Hdata' as <-.
  rewrite Hsel, (selection_is_filtered_header self df Hnd).
  split; [reflexivity | now apply NoDup_filter].
Qed.

End SelectionOrder.

(** X5.  The selection depends on the filter as a set only: two filters
    naming the same columns, in any order and with any repetition, select
    the same columns in the same order. *)
Theorem selection_ignores_filter_order (self1 self2 : CSVVisualizer) (df : DataFrame)
    (f1 f2 : list pystr) :
  columns self1 = Some f1 -> columns self2 = Some f2 ->
  (forall c, In c f1 <-> In c f2) ->
  selection self1 df = selection self2 df.
Proof.
  intros H1 H2 Hsame. unfold selection. rewrite H1, H2. cbn [or_empty].
  assert (Htruthy : truthy_list (Some f1) = truthy_list (Some f2)).
  { destruct f1 as [| x f1], f2 as [| y f2]; try reflexivity.
    - destruct (proj2 (Hsame y) (or_introl eq_refl)).
    - destruct (proj1 (Hsame x) (or_introl eq_refl)). }
  rewrite Htruthy. destruct (truthy_list (Some f2)); [| reflexivity].
  apply filter_ext. intros c. apply eq_true_iff_eq.
  rewrite !mem_In, !filter_In, !mem_In, Hsame. tauto.
Qed.

(** * Further properties of the statistics *)

Lemma dropna_empty (s : Series) : series_len (dropna s) = O <-> notna_any s = false.
Proof.
  destruct s as [cells | cells]; simpl;
    (induction cells as [| [x |] cells IH]; simpl;
     [split; reflexivity | split; discriminate | exact IH]).
Qed.









Lemma Qeq_bool_zero_comp (a b : Q) : a == b -> Qeq_bool a 0 = Qeq_bool b 0.
Proof.
  intros H. apply eq_true_iff_eq. rewrite !Qeq_bool_iff. now rewrite H.
Qed.


Section StatisticsEdges.

Variable sqrt : Q -> Q.
Variable skew_of : list Q -> npfloat.
Variable kurtosis_of : list Q -> npfloat.

(** X6.  On a loaded object, [calculate_statistics] raises [KeyError]
    for a name the frame lacks, and for a column of the frame it returns
    the empty dictionary exactly when the column has no value at all. *)
Theorem statistics_of_absent_or_empty (self : CSVVisualizer) (df : DataFrame)
    (column : pystr) :
  data self = Some df ->
  (lookup column (df_columns df) = None ->
   calculate_statistics sqrt skew_of kurtosis_of self column = Raised (KeyError column)) /\
  (forall s, lookup column (df_columns df) = Some s ->
     (calculate_statistics sqrt skew_of kurtosis_of self column = Returned None <->
      notna_any s = false)).
Proof.
  intros Hdata. unfold calculate_statistics, self_column, df_get. rewrite Hdata.
  split.
  - intros Hl. now rewrite Hl.
  - intros s Hl. rewrite Hl.
    destruct (series_len (dropna s) =? 0)%nat eqn:E.
    + apply Nat.eqb_eq, dropna_empty in E. tauto.
    + apply Nat.eqb_neq in E. rewrite dropna_empty in E. split.
      * destruct (numbers (dropna s)); [| discriminate].
        rewrite cv_of_returns. discriminate.
      * intros H. contradiction.
Qed.





End StatisticsEdges.

(** * Further properties of the histogram renders *)






(** ** The inline histogram, bin by bin *)









(** ** The wide histogram, bar by bar *)





(** ** A column without variance *)






Lemma nth_map_seq {A : Type} (f : nat -> A) (n i : nat) (d : A) :
  (i < n)%nat -> nth i (map f (seq 0 n)) d = f i.
Proof.
  intros Hi. rewrite (nth_indep _ d (f O)) by (now rewrite length_map, length_seq).
  now rewrite map_nth, seq_nth.
Qed.


(** * The statistics table *)

Lemma join_length (sep : pystr) (parts : list pystr) :
  length (join sep parts)
  = (total (map (@length N) parts) + length sep * (length parts - 1))%nat.
Proof.
  induction parts as [| p parts IH]; [simpl; lia |].
  destruct parts as [| q parts].
  - cbn [join map total fold_right length]. lia.
  - change (join sep (p :: q :: parts)) with (p ++ sep ++ join sep (q :: parts)).
    rewrite !length_app, IH. cbn [map total fold_right length]. lia.
Qed.

Lemma ljust_length (w : nat) (cell : pystr) :
  (length cell <= w)%nat -> length (ljust w cell) = w.
Proof. intros H. unfold ljust. rewrite length_app, repeat_length. lia. Qed.

(** Cells that fit their columns, justified, are as wide as the
    columns. *)
Lemma justified_lengths (row : list pystr) (widths : list nat) :
  Forall2 (fun cell w => (length cell <= w)%nat) row widths ->
  map (@length N) (justified row widths) = widths /\
  length (justified row widths) = length widths.
Proof.
  induction 1 as [| cell w row widths Hfit Hrest [IH1 IH2]]; [now split |].
  cbn [justified map length]. rewrite ljust_length, IH1, IH2 by exact Hfit. now split.
Qed.

Lemma widen_spec (widths : list nat) (row : list pystr) :
  length row = length widths ->
  Forall2 le widths (widen widths row) /\
  Forall2 (fun cell w => (length cell <= w)%nat) row (widen widths row).
Proof.
  revert row. induction widths as [| w widths IH]; intros [| cell row] Hlen; simpl in Hlen;
    try discriminate.
  - split; constructor.
  - injection Hlen as Hlen. destruct (IH row Hlen) as [H1 H2].
    cbn [widen]. split; constructor; try assumption; lia.
Qed.

Lemma Forall2_le_trans (a b c : list nat) :
  Forall2 le a b -> Forall2 le b c -> Forall2 le a c.
Proof.
  intros Hab. revert c. induction Hab as [| x y a b Hxy Hab IH]; intros c Hbc;
    inversion Hbc; subst; constructor; [lia | now apply IH].
Qed.

Lemma fits_wider (row : list pystr) (b c : list nat) :
  Forall2 (fun cell w => (length cell <= w)%nat) row b -> Forall2 le b c ->
  Forall2 (fun cell w => (length cell <= w)%nat) row c.
Proof.
  intros Hab. revert c. induction Hab as [| x y a b Hxy Hab IH]; intros c Hbc;
    inversion Hbc; subst; constructor; [lia | now apply IH].
Qed.

Lemma Forall2_le_refl (a : list nat) : Forall2 le a a.
Proof. induction a; constructor; [lia | assumption]. Qed.

Lemma table_row_length (self : CSVVisualizer) (st : Stats.t) (row : list pystr) :
  table_row self st = Returned row ->
  length row = length (headers (show_all_stats self)).
Proof.
  unfold table_row. destruct (create_inline_histogram self (Stats.column st)); [| discriminate].
  intros H. injection H as <-. cbn [length]. rewrite length_app, length_map.
  now destruct (show_all_stats self).
Qed.

(** The widths only grow along the loop, and every row fits the final
    widths. *)
Lemma table_rows_spec (self : CSVVisualizer) (all_stats : list Stats.t) :
  forall widths rows final,
    length widths = length (headers (show_all_stats self)) ->
    table_rows self all_stats widths = Returned (rows, final) ->
    Forall2 le widths final /\
    length rows = length all_stats /\
    Forall (fun row => Forall2 (fun cell w => (length cell <= w)%nat) row final) rows.
Proof.
  induction all_stats as [| st rest IH]; intros widths rows final Hk; cbn [table_rows].
  - intros H. injection H as <- <-. split; [apply Forall2_le_refl | now split].
  - destruct (table_row self st) as [row | e] eqn:Hrow; [| discriminate].
    destruct (table_rows self rest (widen widths row)) as [[rows' final'] | e] eqn:Hrest;
      [| discriminate].
    intros H. injection H as <- <-.
    pose proof (table_row_length self st row Hrow) as Hlen.
    destruct (widen_spec widths row ltac:(congruence)) as [Hgrow Hfit].
    assert (Hk' : length (widen widths row) = length (headers (show_all_stats self))).
    { apply Forall2_length in Hgrow. congruence. }
    destruct (IH _ _ _ Hk' Hrest) as (Hmono & Hcount & Hall).
    split; [now apply Forall2_le_trans with (widen widths row) |].
    split; [cbn [length]; now rewrite Hcount |].
    constructor; [now apply fits_wider with (widen widths row) | exact Hall].
Qed.

Lemma header_fits (hs : list pystr) :
  Forall2 (fun cell w => (length cell <= w)%nat) hs (map (@length N) hs).
Proof. induction hs; cbn [map]; constructor; [lia | assumption]. Qed.

Lemma separator_lengths (widths : list nat) :
  map (@length N) (map (fun i => repeat 45%N (nth i widths O)) (seq 0 (length widths)))
  = widths.
Proof.
  apply nth_ext with (d := O) (d' := O).
  - now rewrite !length_map, length_seq.
  - intros i Hi. rewrite !length_map, length_seq in Hi.
    rewrite map_map, nth_map_seq by exact Hi. apply repeat_length.
Qed.

(** X16.  The statistics table is a rectangle: when
    [format_statistics_table] returns, its text is a header line, a
    separator line and one line per record, joined by newlines, and all
    these lines have the same length. *)
Theorem table_is_rectangular (self : CSVVisualizer) (all_stats : list Stats.t)
    (table : pystr) :
  format_statistics_table self all_stats = Returned table ->
  exists lines width,
    table = join [10%N] lines /\
    length lines = (2 + length all_stats)%nat /\
    forall line, In line lines -> length line = width.
Proof.
  unfold format_statistics_table, table_lines.
  set (hs := headers (show_all_stats self)).
  destruct (table_rows self all_stats (map (@length N) hs)) as [[rows widths] | e] eqn:Hrows;
    [| discriminate].
  intros H. apply Returned_inj in H. subst table.
  destruct (table_rows_spec self all_stats _ _ _ (length_map _ _) Hrows)
    as (Hmono & Hcount & Hall).
  assert (Hk : length widths = length hs).
  { apply Forall2_length in Hmono. now rewrite length_map in Hmono. }
  set (width := (total widths + 3 * (length widths - 1))%nat).
  assert (Hline : forall row,
            Forall2 (fun cell w => (length cell <= w)%nat) row widths ->
            length (join (str " | ") (justified row widths)) = width).
  { intros row Hfit. destruct (justified_lengths row widths Hfit) as [H1 H2].
    rewrite join_length, H1, H2. reflexivity. }
  eexists. exists width. split; [reflexivity |].
  split; [cbn [length]; now rewrite length_map, Hcount |].
  intros line [<- | [<- | Hin]].
  - apply Hline. apply fits_wider with (map (@length N) hs); [apply header_fits | exact Hmono].
  - rewrite join_length, <- Hk, separator_lengths, length_map, length_seq. reflexivity.
  - apply in_map_iff in Hin. destruct Hin as (row & <- & Hrow).
    apply Hline. rewrite Forall_forall in Hall. now apply Hall.
Qed.

(** * The analysis run *)







Section Run.

Variable read_csv : pystr -> outcome DataFrame.
Variable choice : Z -> nat -> nat -> list nat.
Variable sqrt : Q -> Q.
Variable skew_of : list Q -> npfloat.
Variable kurtosis_of : list Q -> npfloat.
Variable now : pystr.





End Run.

(** * The lines of the wide histogram in the report *)
















(** * The export *)

Lemma rfind_none (ch : N) (s : pystr) : rfind ch s = None -> ~ In ch s.
Proof.
  induction s as [| x s IH]; cbn [rfind]; [tauto |].
  destruct (rfind ch s) as [i |]; [discriminate |].
  destruct (N.eqb_spec x ch); [discriminate |].
  intros _ Hin. destruct Hin as [Hx | Hin]; [contradiction | now apply IH in Hin].
Qed.

Lemma rfind_some (ch : N) (s : pystr) (i : nat) :
  rfind ch s = Some i -> ~ In ch (skipn (S i) s).
Proof.
  revert i. induction s as [| x s IH]; intros i; cbn [rfind]; [discriminate |].
  destruct (rfind ch s) as [j |] eqn:E.
  - intros H. injection H as <-. cbn [skipn]. now apply IH.
  - destruct (N.eqb_spec x ch); [| discriminate].
    intros H. injection H as <-. cbn [skipn]. now apply rfind_none.
Qed.

Lemma basename_no_slash (p : pystr) : ~ In 47%N (basename p).
Proof.
  unfold basename. destruct (rfind 47%N p) as [i |] eqn:E;
    [now apply rfind_some | now apply rfind_none].
Qed.

Lemma firstn_member {A : Type} (n : nat) (l : list A) (x : A) : In x (firstn n l) -> In x l.
Proof.
  revert l. induction n as [| n IH]; intros [| y l]; simpl; try tauto.
  intros [-> | Hin]; [now left | right; now apply IH].
Qed.

Lemma splitext_stem_no_slash (name : pystr) : ~ In 47%N name -> ~ In 47%N (splitext_stem name).
Proof.
  intros Hnot. unfold splitext_stem. destruct (rfind 46%N name) as [i |]; [| exact Hnot].
  destruct (forallb (N.eqb 46%N) (firstn i name)); [exact Hnot |].
  intros Hin. apply Hnot. now apply firstn_member in Hin.
Qed.

Section Exporting.

Variable open_for_writing : pystr -> outcome unit.
Variable to_csv : list Stats.t -> pystr.
Variable json_dump : list Stats.t -> pystr.
Variable plotly_installed : bool.

(** X19.  Without an output path (none, or an empty one) a csv or json
    export writes exactly one file, named after the source file without
    its directory and its extension, with [_statistics] and the format
    appended: the file lands in the working directory, not beside the
    source. *)
Theorem default_export_path (self : CSVVisualizer) (all_stats : list Stats.t)
    (format : pystr) (output_path : option pystr) :
  format = str "csv" \/ format = str "json" ->
  output_path = None \/ output_path = Some [] ->
  let path := splitext_stem (basename (csv_path self)) ++ str "_statistics." ++ format in
  open_for_writing path = Returned tt ->
  ~ In 47%N path /\
  written (fst (export_results open_for_writing to_csv json_dump plotly_installed
                  self all_stats format output_path))
  = [(path, if pystr_eqb format (str "csv") then to_csv all_stats else json_dump all_stats)].
Proof.
  intros Hfmt Hout path Hopen. split.
  - unfold path. intros Hin. apply in_app_or in Hin. destruct Hin as [Hin | Hin].
    + revert Hin. apply splitext_stem_no_slash, basename_no_slash.
    + apply in_app_or in Hin. destruct Hin as [Hin | Hin].
      * revert Hin. vm_compute. intuition discriminate.
      * destruct Hfmt as [-> | ->]; revert Hin; vm_compute; intuition discriminate.
  - assert (Hpath : forall ext, export_path self output_path ext
                      = splitext_stem (basename (csv_path self)) ++ str "_statistics." ++ ext).
    { intros ext. now destruct Hout as [-> | ->]. }
    assert (Hcsv : pystr_eqb (str "csv") (str "csv") = true) by reflexivity.
    assert (Hjc : pystr_eqb (str "json") (str "csv") = false) by reflexivity.
    assert (Hjson : pystr_eqb (str "json") (str "json") = true) by reflexivity.
    unfold export_results, write_and_tell. unfold path in Hopen |- *.
    destruct Hfmt as [-> | ->].
    + rewrite Hcsv, Hpath, Hopen. now destruct (quiet_mode self).
    + rewrite Hjc, Hjson, Hpath, Hopen. now destruct (quiet_mode self).
Qed.

End Exporting.

(** * The command line *)

Section CommandLine.

Variable read_csv : pystr -> outcome DataFrame.
Variable choice : Z -> nat -> nat -> list nat.
Variable sqrt : Q -> Q.
Variable skew_of : list Q -> npfloat.
Variable kurtosis_of : list Q -> npfloat.
Variable now : pystr.
Variable path_exists : pystr -> bool.
Variable open_for_writing : pystr -> outcome unit.
Variable to_csv : list Stats.t -> pystr.
Variable json_dump : list Stats.t -> pystr.
Variable plotly_installed : bool.






End CommandLine.

(** * Sampling and the selection *)

Lemma lookup_take (positions : list nat) (c : pystr) (cols : list (pystr * Series)) :
  lookup c (map (fun col => (fst col, series_take positions (snd col))) cols)
  = option_map (series_take positions) (lookup c cols).
Proof.
  induction cols as [| [name s] cols IH]; [reflexivity |].
  cbn [map lookup fst snd]. now destruct (pystr_eqb c name).
Qed.

Lemma take_keeps_nothing_new {A : Type} (positions : list nat) (cells : list (option A)) :
  existsb is_some (take positions cells) = true -> existsb is_some cells = true.
Proof.
  unfold take. rewrite !existsb_exists. intros (cell & Hin & Hsome).
  apply in_map_iff in Hin. destruct Hin as (i & <- & _).
  exists (nth i cells None). split; [| exact Hsome].
  destruct (nth_in_or_default i cells None) as [H | H]; [exact H |].
  rewrite H in Hsome. discriminate.
Qed.

Lemma select_dtypes_take (positions : list nat) (df : DataFrame) :
  select_dtypes_number (df_take positions df) = select_dtypes_number df.
Proof.
  unfold select_dtypes_number, df_take. cbn [df_columns].
  induction (df_columns df) as [| [name s] cols IH]; [reflexivity |].
  cbn [map filter fst snd].
  assert (E : is_number (series_take positions s) = is_number s) by now destruct s.
  rewrite E. destruct (is_number s); cbn [map fst]; now rewrite IH.
Qed.

(** X22.  Sampling can only shrink the selection: a column selected in
    the frame the sampling step leaves is selected in the frame as read
    too. *)
Theorem sampling_shrinks_selection (choice : Z -> nat -> nat -> list nat)
    (self : CSVVisualizer) (df0 df : DataFrame) (c : pystr) :
  after_sampling choice self df0 = Returned df ->
  In c (selection self df) -> In c (selection self df0).
Proof.
  rewrite after_sampling_cases.
  destruct (sample_size self) as [n |]; [| congruence].
  destruct (n <? 0)%Z; [discriminate |].
  destruct ((n =? 0) || (Z.of_nat (df_len df0) <=? n))%Z; [congruence |].
  intros H. injection H as <-. rewrite !selection_In.
  set (positions := choice (random_state self) (df_len df0) (Z.to_nat n)).
  rewrite select_dtypes_take. intros (Hnum & (s & Hl & Hany) & Hf).
  split; [exact Hnum |]. split; [| exact Hf].
  unfold df_take in Hl. cbn [df_columns] in Hl. rewrite lookup_take in Hl.
  destruct (lookup c (df_columns df0)) as [s0 |]; [| discriminate].
  injection Hl as <-. exists s0. split; [reflexivity |].
  destruct s0 as [cells | cells]; cbn [series_take notna_any] in *;
    now apply take_keeps_nothing_new with positions.
Qed.

(** * The files [main] writes *)

Section Files.

Variable read_csv : pystr -> outcome DataFrame.
Variable choice : Z -> nat -> nat -> list nat.
Variable sqrt : Q -> Q.
Variable skew_of : list Q -> npfloat.
Variable kurtosis_of : list Q -> npfloat.
Variable now : pystr.
Variable path_exists : pystr -> bool.
Variable open_for_writing : pystr -> outcome unit.
Variable to_csv : list Stats.t -> pystr.
Variable json_dump : list Stats.t -> pystr.
Variable plotly_installed : bool.

Lemma export_files (self : CSVVisualizer) (all_stats : list Stats.t) (format : pystr)
    (output_path : option pystr) :
  let effects := fst (export_results open_for_writing to_csv json_dump plotly_installed
                        self all_stats format output_path) in
  (length (written effects) <= 1)%nat /\
  (written effects <> [] -> format = str "csv" \/ format = str "json").
Proof.
  cbv zeta. unfold export_results, write_and_tell, export_html_report.
  destruct (pystr_eqb format (str "csv")) eqn:Ecsv.
  - apply pystr_eqb_eq in Ecsv.
    destruct (open_for_writing _); destruct (quiet_mode self); cbn; split; auto.
  - destruct (pystr_eqb format (str "json")) eqn:Ejson.
    + apply pystr_eqb_eq in Ejson.
      destruct (open_for_writing _); destruct (quiet_mode self); cbn; split; auto.
    + destruct (pystr_eqb format (str "html")); [destruct plotly_installed |];
        destruct (quiet_mode self); cbn; split; auto; congruence.
Qed.

(** X23.  [main] writes one file at most, and none unless the export
    format is csv or json: the html export, like the text one, leaves
    no file. *)
Theorem main_writes_for_csv_and_json_only (args : Args) :
  let run := main read_csv choice sqrt skew_of kurtosis_of now path_exists
               open_for_writing to_csv json_dump plotly_installed args in
  (length (files run) <= 1)%nat /\
  (files run <> [] -> arg_export args = str "csv" \/ arg_export args = str "json").
Proof.
  cbv zeta. unfold main.
  destruct (path_exists (csv_file args)); cbn [negb]; [| cbn; split; [lia | congruence]].
  destruct (run_analysis _ _ _ _ _ _ _) as [[self' out] [[all_stats report] | e]];
    [| cbn; split; [lia | congruence]].
  destruct (pystr_eqb (arg_export args) (str "txt")).
  - destruct (arg_quiet args); [cbn; split; [lia | congruence] |].
    destruct (summary args self') as [closing [u | e]]; cbn; split; try lia; congruence.
  - pose proof (export_files self' all_stats (arg_export args) (arg_output args)) as H.
    cbv zeta in H.
    destruct (export_results _ _ _ _ _ _ _ _) as [effects [u | e]]; exact H.
Qed.

End Files.

(** * The order of the rows *)

















Section RowOrder.

Variable sqrt : Q -> Q.
Variable skew_of : list Q -> npfloat.
Variable kurtosis_of : list Q -> npfloat.


End RowOrder.

(** * The further properties at work on the example data *)

Lemma simple_frame_distinct : NoDup (df_names simple_frame).
Proof.
  vm_compute. repeat constructor; cbn [In]; intuition discriminate.
Qed.


(** X1 on a file system without the file. *)
Lemma load_error_classes_witness :
  snd (load_and_prepare_data no_files head_choice
         (init (str "simple.csv") None 10 None 20 false 42))
  = Raised (FileNotFoundError (str "CSV file not found: " ++ str "simple.csv")).
Proof.
  pose proof (load_error_classes no_files head_choice
                (init (str "simple.csv") None 10 None 20 false 42)) as H.
  cbv zeta in H. destruct H as (_ & Hiff & Hmsg & _).
  destruct (proj2 Hiff (ex_intro _ _ eq_refl)) as [m Hm].
  rewrite Hm. f_equal. f_equal. exact (Hmsg m Hm).
Defined.

(** X2 on a request for a sample of -1 rows. *)
Lemma negative_sample_size_fails_witness :
  simple_files (csv_path (sampling (-1))) = Returned simple_frame /\
  df_empty simple_frame = false /\
  sample_size (sampling (-1)) = Some (-1)%Z /\ (-1 < 0)%Z /\
  load_and_prepare_data simple_files head_choice (sampling (-1)) =
  (set_data (sampling (-1)) simple_frame, [],
   Raised (ValueError
     (str "A negative number of rows requested. Please provide `n` >= 0."))).
Proof.
  split; [reflexivity |]. split; [reflexivity |]. split; [reflexivity |].
  split; [lia |].
  apply (negative_sample_size_fails simple_files head_choice (sampling (-1)) simple_frame
           (-1)%Z); [reflexivity | reflexivity | reflexivity | lia].
Defined.

(** X3 on the request that would otherwise print a warning. *)
Lemma quiet_load_prints_nothing_witness :
  quiet_mode (set_quiet_mode filtering true) = true /\
  snd (fst (load_and_prepare_data simple_files head_choice (set_quiet_mode filtering true)))
  = [].
Proof.
  split; [reflexivity |].
  apply (quiet_load_prints_nothing simple_files head_choice (set_quiet_mode filtering true)).
  reflexivity.
Defined.

(** X4 on the test suite's file. *)
Lemma selection_in_header_order_witness :
  load_and_prepare_data simple_files head_choice
    (init (str "simple.csv") None 10 None 20 false 42)
    = (simple_visualizer, [], Returned tt) /\
  data simple_visualizer = Some simple_frame /\
  numeric_columns simple_visualizer
    = filter (chosen (init (str "simple.csv") None 10 None 20 false 42) simple_frame)
             (df_names simple_frame) /\
  NoDup (numeric_columns simple_visualizer).
Proof.
  split; [vm_compute; reflexivity |]. split; [reflexivity |].
  apply (selection_in_header_order simple_files head_choice
           (init (str "simple.csv") None 10 None 20 false 42) simple_visualizer []
           simple_frame).
  - vm_compute. reflexivity.
  - reflexivity.
  - exact simple_frame_distinct.
Defined.

(** X5 on the filters [age, height] and [height, age, age]. *)
Lemma selection_ignores_filter_order_witness :
  columns filtering = Some [str "age"; str "height"] /\
  columns filtering_reordered = Some [str "height"; str "age"; str "age"] /\
  selection filtering simple_frame = selection filtering_reordered simple_frame.
Proof.
  split; [reflexivity |]. split; [reflexivity |].
  apply (selection_ignores_filter_order filtering filtering_reordered simple_frame
           [str "age"; str "height"] [str "height"; str "age"; str "age"]).
  - reflexivity.
  - reflexivity.
  - intros c. cbn [In]. tauto.
Defined.

(** X6 on a column the test suite's file lacks. *)
Lemma statistics_of_absent_or_empty_witness :
  data simple_visualizer = Some simple_frame /\
  lookup (str "height") (df_columns simple_frame) = None /\
  calculate_statistics floor_sqrt no_moment no_moment simple_visualizer (str "height")
  = Raised (KeyError (str "height")).
Proof.
  split; [reflexivity |]. split; [reflexivity |].
  apply (proj1 (statistics_of_absent_or_empty floor_sqrt no_moment no_moment
                  simple_visualizer simple_frame (str "height") eq_refl)).
  reflexivity.
Defined.











(** X16 on the table of the test suite's file. *)
Lemma table_is_rectangular_witness :
  exists all_stats table,
    collect_statistics floor_sqrt no_moment no_moment simple_visualizer
      (numeric_columns simple_visualizer) = Returned all_stats /\
    format_statistics_table simple_visualizer all_stats = Returned table /\
    exists lines width,
      table = join [10%N] lines /\
      length lines = (2 + length all_stats)%nat /\
      forall line, In line lines -> length line = width.
Proof.
  eexists. eexists. split; [vm_compute; reflexivity |].
  split; [vm_compute; reflexivity |].
  eapply (table_is_rectangular simple_visualizer). vm_compute. reflexivity.
Defined.



(** X19 on a csv export of [data/simple.csv]: the file is
    [simple_statistics.csv]. *)
Lemma default_export_path_witness :
  splitext_stem (basename (str "data/simple.csv")) ++ str "_statistics." ++ str "csv"
    = str "simple_statistics.csv" /\
  written (fst (export_results writable names_only names_only false
                  (init (str "data/simple.csv") None 10 None 20 false 42) []
                  (str "csv") None))
  = [(splitext_stem (basename (str "data/simple.csv")) ++ str "_statistics." ++ str "csv",
      names_only [])].
Proof.
  split; [reflexivity |].
  apply (default_export_path writable names_only names_only false
           (init (str "data/simple.csv") None 10 None 20 false 42) [] (str "csv") None
           (or_introl eq_refl) (or_introl eq_refl) eq_refl).
Defined.



(** X22 on a sample of 2 of the 5 rows. *)
Lemma sampling_shrinks_selection_witness :
  exists df,
    after_sampling head_choice (sampling 2) simple_frame = Returned df /\
    In (str "age") (selection (sampling 2) df) /\
    In (str "age") (selection (sampling 2) simple_frame).
Proof.
  eexists. split; [vm_compute; reflexivity |].
  assert (Hin : In (str "age")
                  (selection (sampling 2)
                     (df_take (head_choice 42 5 2) simple_frame))).
  { vm_compute. left. reflexivity. }
  split; [exact Hin |].
  eapply (sampling_shrinks_selection head_choice (sampling 2) simple_frame).
  - vm_compute. reflexivity.
  - exact Hin.
Defined.

(** X23 on [data/simple.csv --export json]: a file is written, and the
    format is one of the two. *)
Lemma main_writes_for_csv_and_json_only_witness :
  files (main simple_files head_choice floor_sqrt no_moment no_moment fixed_now
           every_path_exists writable names_only names_only false
           (simple_args (str "json") false)) <> [] /\
  (arg_export (simple_args (str "json") false) = str "csv" \/
   arg_export (simple_args (str "json") false) = str "json").
Proof.
  assert (Hfiles : files (main simple_files head_choice floor_sqrt no_moment no_moment
                            fixed_now every_path_exists writable names_only names_only
                            false (simple_args (str "json") false)) <> []).
  { vm_compute. discriminate. }
  split; [exact Hfiles |].
  apply (proj2 (main_writes_for_csv_and_json_only simple_files head_choice floor_sqrt
                  no_moment no_moment fixed_now every_path_exists writable names_only
                  names_only false (simple_args (str "json") false))).
  exact Hfiles.
Defined.


(** ** The formats on a few values *)

Example thousands_separated : format_thousands 4321 = str "4,321".
Proof. reflexivity. Qed.

Example four_decimals :
  format_f 4 (316 # 10) = str "31.6000" /\ format_f 4 (- (1 # 100000)) = str "-0.0000".
Proof. split; reflexivity. Qed.

Example percent_of_ratio : format_percent (Finite (1 # 8)) = str "12.50%".
Proof. reflexivity. Qed.

Example hidden_file_has_no_extension :
  splitext_stem (basename (str "data/.hidden")) = str ".hidden".
Proof. reflexivity. Qed.
